(** * x402-generate.mjs: pay, submit, poll, report

    A shallow embedding of [scripts/x402-generate.mjs] and the properties of
    its submission step, its polling loop, its polling policy and its
    explorer-link derivation.

    The script is a straight-line ES module with top-level [await]: it reads
    [process.argv] and [process.env], builds a payment-capable [fetch], POSTs
    one creation request, then polls a status endpoint in a bounded [for]
    loop, printing as it goes and leaving through [process.exit].

    Modelling choices.
    - What the script reads from outside (arguments, environment variables,
      which payment SDK can be loaded, the HTTP responses, the clock) is a
      record [world]; the script is a function of it.
    - What the script does to the outside (console lines, HTTP requests,
      timers) is a list of [event]s, in program order.
    - [process.exit] and uncaught exceptions cut the rest of the script:
      a writer monad with early exit, [M].
    - JavaScript values are the inductive [value]; strings are Rocq strings
      holding the UTF-8 text as the source file and the terminal have it.
      Numbers are exact integers (or [NaN], which [parseInt] produces):
      fractions, the rounding of integers beyond 2^53 and the exponent form
      JavaScript prints from 10^21 on are outside the model. *)

From Stdlib Require Import ZArith List String Ascii Bool Lia.
From Stdlib Require Import Numbers.DecimalString.
Import ListNotations.

Set Warnings "-register-all".

Open Scope string_scope.
Open Scope Z_scope.

(** ** JavaScript values *)

Module JS.

Inductive number : Type :=
| NaN
| Int (z : Z).

Inductive value : Type :=
| VUndef
| VNull
| VBool (b : bool)
| VNum (n : number)
| VStr (s : string)
| VArr (elems : list value)
| VObj (fields : list (string * value)).

(** ToBoolean. *)
Definition truthy (v : value) : bool :=
  match v with
  | VUndef | VNull => false
  | VBool b => b
  | VNum NaN => false
  | VNum (Int z) => negb (z =? 0)
  | VStr s => negb (s =? "")%string
  | VArr _ | VObj _ => true
  end.

(** [a || b]; the right operand is pure wherever the script uses it, so it
    is passed by value. *)
Definition or (a b : value) : value := if truthy a then a else b.

(** Own-property lookup in an object literal or a decoded JSON object: the
    first binding of the name. *)
Fixpoint lookup (k : string) (fields : list (string * value)) : option value :=
  match fields with
  | [] => None
  | (k', v) :: rest => if (k =? k')%string then Some v else lookup k rest
  end.

(** [v.k]. [None] is the TypeError raised on [undefined] and [null].
    The script reads only names that no prototype defines (taskId, txHash,
    explorer, status, metadata, percent, progress, result, generation, video,
    image, gif, error), so primitives and arrays answer [undefined]. *)
Definition member (v : value) (k : string) : option value :=
  match v with
  | VUndef | VNull => None
  | VObj fields =>
      match lookup k fields with
      | Some x => Some x
      | None => Some VUndef
      end
  | _ => Some VUndef
  end.

(** [v?.k]: [undefined] on [undefined] and [null], never raises. *)
Definition opt_member (v : value) (k : string) : value :=
  match member v k with
  | Some x => x
  | None => VUndef
  end.

(** Decimal text of an integer, as Number::toString gives it. *)
Definition Z_to_string (z : Z) : string :=
  NilZero.string_of_int (Z.to_int z).

Definition number_to_string (n : number) : string :=
  match n with
  | NaN => "NaN"
  | Int z => Z_to_string z
  end.

Fixpoint join (sep : string) (l : list string) : string :=
  match l with
  | [] => ""
  | [s] => s
  | s :: rest => s ++ sep ++ join sep rest
  end.

(** ToString, as a template literal [`${v}`] applies it. Arrays go through
    [Array.prototype.join], which prints [undefined] and [null] as nothing. *)
Fixpoint to_string (v : value) : string :=
  match v with
  | VUndef => "undefined"
  | VNull => "null"
  | VBool true => "true"
  | VBool false => "false"
  | VNum n => number_to_string n
  | VStr s => s
  | VArr elems =>
      join ","
        (map (fun e => match e with
                       | VUndef | VNull => ""
                       | _ => to_string e
                       end) elems)
  | VObj _ => "[object Object]"
  end.

(** *** Strings *)

(** [hay.includes(needle)]. *)
Fixpoint includes (needle hay : string) : bool :=
  match hay with
  | EmptyString => prefix needle hay
  | String _ rest => prefix needle hay || includes needle rest
  end.

(** [s.startsWith(p)]. *)
Definition startsWith (p s : string) : bool := prefix p s.

(** JavaScript counts a string in UTF-16 code units. In UTF-8 text a byte
    [10xxxxxx] continues a character, and a character that starts with
    [11110xxx] takes two code units; every other character takes one. *)
Definition is_continuation (c : ascii) : bool :=
  let n := nat_of_ascii c in ((128 <=? n) && (n <? 192))%nat.

Definition code_units (c : ascii) : nat :=
  if is_continuation c then 0%nat
  else if (240 <=? nat_of_ascii c)%nat then 2%nat
  else 1%nat.

(** [s.length]. *)
Fixpoint js_length (s : string) : nat :=
  match s with
  | EmptyString => 0%nat
  | String c rest => (code_units c + js_length rest)%nat
  end.

(** U+FFFD, which the terminal shows for half a surrogate pair. *)
Definition replacement_character : string :=
  String (ascii_of_nat 239) (String (ascii_of_nat 191) (String (ascii_of_nat 189) "")).

(** [s.slice(0, n)], as it reaches the terminal: the characters that fit in
    [n] code units. A two-unit character cut in the middle leaves half a
    surrogate pair. *)
Fixpoint slice0 (n : nat) (s : string) : string :=
  match s with
  | EmptyString => ""
  | String c rest =>
      if is_continuation c then String c (slice0 n rest)
      else if (code_units c <=? n)%nat then String c (slice0 (n - code_units c) rest)
      else if (n =? 1)%nat then replacement_character
      else ""
  end.

(** How many bytes of white space a string starts with: tab to carriage
    return and the space, or the UTF-8 form of U+00A0, U+1680,
    U+2000-U+200A, U+2028, U+2029, U+202F, U+205F, U+3000, U+FEFF. *)
Definition space_width (s : string) : nat :=
  match map nat_of_ascii (list_ascii_of_string (substring 0 3 s)) with
  | (194 :: 160 :: _)%nat => 2%nat
  | (225 :: 154 :: 128 :: _)%nat => 3%nat
  | (226 :: 128 :: c :: _)%nat =>
      if ((128 <=? c) && (c <=? 138) || (c =? 168) || (c =? 169) || (c =? 175))%nat
      then 3%nat else 0%nat
  | (226 :: 129 :: 159 :: _)%nat => 3%nat
  | (227 :: 128 :: 128 :: _)%nat => 3%nat
  | (239 :: 187 :: 191 :: _)%nat => 3%nat
  | (c :: _)%nat => if ((9 <=? c) && (c <=? 13) || (c =? 32))%nat then 1%nat else 0%nat
  | [] => 0%nat
  end.

Definition drop (n : nat) (s : string) : string := substring n (length s - n) s.

Fixpoint skip_spaces_upto (fuel : nat) (s : string) : string :=
  match fuel with
  | O => s
  | S fuel' =>
      match space_width s with
      | O => s
      | n => skip_spaces_upto fuel' (drop n s)
      end
  end.

Definition skip_spaces (s : string) : string := skip_spaces_upto (length s) s.

Definition digit_of (c : ascii) : option Z :=
  let n := Z.of_nat (nat_of_ascii c) in
  if (48 <=? n) && (n <=? 57) then Some (n - 48) else None.

Fixpoint read_digits (acc : option Z) (s : string) : option Z :=
  match s with
  | EmptyString => acc
  | String c rest =>
      match digit_of c with
      | Some d =>
          read_digits (Some (10 * match acc with Some a => a | None => 0 end + d)) rest
      | None => acc
      end
  end.

(** [parseInt(s, 10)]: leading white space, an optional sign, then the
    longest run of decimal digits; [NaN] when there is none. *)
Definition parseInt10 (s : string) : number :=
  let s := skip_spaces s in
  let '(neg, s) :=
    match s with
    | String "-" rest => (true, rest)
    | String "+" rest => (false, rest)
    | _ => (false, s)
    end in
  match read_digits None s with
  | None => NaN
  | Some n => Int (if neg then - n else n)
  end.

(** *** JSON.stringify *)

Definition quote_char : ascii := ascii_of_nat 34.
Definition backslash : ascii := ascii_of_nat 92.

Definition dq : string := String quote_char "".

(** The line feed of the source's ["\n"]. *)
Definition nl : string := String (ascii_of_nat 10) "".

Definition hex_digit (n : nat) : ascii :=
  match get n "0123456789abcdef" with
  | Some c => c
  | None => "0"%char
  end.

(** QuoteJSONString, one character at a time. *)
Definition escape_char (c : ascii) : string :=
  let n := nat_of_ascii c in
  if (n =? 34)%nat || (n =? 92)%nat then String backslash (String c "")
  else if (n =? 8)%nat then String backslash "b"
  else if (n =? 9)%nat then String backslash "t"
  else if (n =? 10)%nat then String backslash "n"
  else if (n =? 12)%nat then String backslash "f"
  else if (n =? 13)%nat then String backslash "r"
  else if (n <? 32)%nat then
    String backslash
      ("u00" ++ String (hex_digit (n / 16)) (String (hex_digit (n mod 16)) ""))
  else String c "".

Definition quote (s : string) : string :=
  String quote_char (concat "" (map escape_char (list_ascii_of_string s)))
  ++ String quote_char "".

(** A non-empty list of serialized members between its brackets. With a gap
    each member sits on a line of its own, indented one gap deeper. *)
Definition bracket (l r gap indent : string) (parts : list string) : string :=
  match parts with
  | [] => l ++ r
  | _ =>
      if (gap =? "")%string then l ++ join "," parts ++ r
      else
        let inner := indent ++ gap in
        l ++ nl ++ inner ++ join ("," ++ nl ++ inner) parts ++ nl ++ indent ++ r
  end.

(** SerializeJSONProperty: [None] is [undefined]. Object members whose value
    is [undefined] are left out; array holes and [NaN] print as [null].
    [fields] lists the own properties in enumeration order. *)
Fixpoint serialize (gap indent : string) (v : value) : option string :=
  match v with
  | VUndef => None
  | VNull => Some "null"
  | VBool true => Some "true"
  | VBool false => Some "false"
  | VNum NaN => Some "null"
  | VNum (Int z) => Some (Z_to_string z)
  | VStr s => Some (quote s)
  | VArr elems =>
      Some (bracket "[" "]" gap indent
              (map (fun e => match serialize gap (indent ++ gap) e with
                             | Some s => s
                             | None => "null"
                             end) elems))
  | VObj fields =>
      Some (bracket "{" "}" gap indent
              ((fix members (fs : list (string * value)) : list string :=
                  match fs with
                  | [] => []
                  | (k, x) :: rest =>
                      match serialize gap (indent ++ gap) x with
                      | Some s =>
                          (quote k ++ ":" ++ (if (gap =? "")%string then "" else " ") ++ s)
                          :: members rest
                      | None => members rest
                      end
                  end) fields))
  end.

(** [JSON.stringify(v)] and [JSON.stringify(v, null, 2)]; an [undefined]
    result reaches the console as the word. *)
Definition JSON_stringify (v : value) : string :=
  match serialize "" "" v with
  | Some s => s
  | None => "undefined"
  end.

Definition JSON_stringify_2 (v : value) : string :=
  match serialize "  " "" v with
  | Some s => s
  | None => "undefined"
  end.

End JS.

Import JS.

(** ** The outside world *)

(** What [fetch] and [res.json()] give back. [FetchRejects] is a transport
    failure (the promise of [fetch] rejects); a response whose body is not
    JSON has [json = None] (the promise of [res.json()] rejects). *)
Inductive fetch_result : Type :=
| FetchRejects
| Response (status : Z) (json : option value).

Record world : Type := {
  (** [process.argv] from index 2 on. *)
  argv : list string;
  env_CLAWDVINE_AGENT_ID : option string;
  env_EVM_PRIVATE_KEY : option string;
  env_SOLANA_PRIVATE_KEY : option string;
  (** Whether each [try] block of the payment setup runs to its end: the
      dynamic imports resolve and the wallet is built from the key. *)
  dexter_loads : bool;
  x402_loads : bool;
  x402_legacy_loads : bool;
  (** The answer to the creation POST. *)
  create_response : fetch_result;
  (** The answer to the status GET of loop iteration [i]. *)
  poll_response : nat -> fetch_result;
  (** [Date.now()] after submission, and in loop iteration [i]. *)
  now_at_start : Z;
  now_at_poll : nat -> Z
}.

(** What the script does, in program order. *)
Inductive event : Type :=
| ConsoleLog (line : string)
| ConsoleWarn (line : string)
| ConsoleError (line : string)
| StdoutWrite (text : string)
| FetchWithPayment (url method : string) (headers : list (string * string)) (body : string)
| Fetch (url : string)
| SetTimeout (ms : Z).

Inductive exn : Type :=
| TransportError
| JsonDecodeError
| TypeError (property : string).

(** How the process ends: [process.exit(code)], or an exception nobody
    catches, which Node reports with exit code 1. *)
Inductive outcome : Type :=
| Exited (code : Z)
| Uncaught (e : exn).

Definition exit_code (o : outcome) : Z :=
  match o with
  | Exited code => code
  | Uncaught _ => 1
  end.

(** ** Output with early exit *)

Definition M (A : Type) : Type := list event * (A + outcome).

Definition ret {A} (a : A) : M A := ([], inl a).

Definition bind {A B} (m : M A) (k : A -> M B) : M B :=
  match m with
  | (t, inl a) => let '(t', r) := k a in ((t ++ t')%list, r)
  | (t, inr o) => (t, inr o)
  end.

Definition emit (e : event) : M unit := ([e], inl tt).
Definition process_exit {A} (code : Z) : M A := ([], inr (Exited code)).
Definition throw {A} (e : exn) : M A := ([], inr (Uncaught e)).

Declare Scope script_scope.
Delimit Scope script_scope with script.
Notation "x <- m ;; k" := (bind m (fun x => k))
  (at level 61, m at next level, right associativity) : script_scope.
Notation "m ;; k" := (bind m (fun _ => k))
  (at level 61, right associativity) : script_scope.
Open Scope script_scope.

Definition when (b : bool) (m : M unit) : M unit := if b then m else ret tt.

(** [await fetch(...)] then [await res.json()], the request already emitted. *)
Definition await_json (r : fetch_result) : M (Z * value) :=
  match r with
  | FetchRejects => throw TransportError
  | Response status None => throw JsonDecodeError
  | Response status (Some body) => ret (status, body)
  end.

(** [v.k] inside the script: the TypeError is not caught anywhere. *)
Definition get (v : value) (k : string) : M value :=
  match member v k with
  | Some x => ret x
  | None => throw (TypeError k)
  end.

(** [v === 'literal']. *)
Definition is_string (v : value) (s : string) : bool :=
  match v with
  | VStr x => (x =? s)%string
  | _ => false
  end.

(** ** Arguments (lines 32-55) *)

Definition API_BASE : string := "https://api.clawdvine.sh".

(** [process.argv[k]], [undefined] past the end. *)
Definition process_argv (w : world) (k : nat) : option string :=
  nth_error (argv w) (k - 2).

(** [a || b] on values that are a string or [undefined]. *)
Definition or_else (a b : option string) : option string :=
  match a with
  | Some s => if (s =? "")%string then b else a
  | None => b
  end.

Definition or_default (a : option string) (d : string) : string :=
  match or_else a None with
  | Some s => s
  | None => d
  end.

Definition defined (a : option string) : bool :=
  match or_else a None with
  | Some _ => true
  | None => false
  end.

Definition prompt (w : world) : option string := process_argv w 2.
Definition model (w : world) : string := or_default (process_argv w 3) "xai-grok-imagine".
Definition duration (w : world) : number := parseInt10 (or_default (process_argv w 4) "8").
Definition agentId (w : world) : option string :=
  or_else (process_argv w 5) (or_else (env_CLAWDVINE_AGENT_ID w) None).
Definition aspectRatio (w : world) : string := or_default (process_argv w 6) "9:16".
Definition imageData (w : world) : option string := or_else (process_argv w 7) None.

Definition evmKey (w : world) : option string := env_EVM_PRIVATE_KEY w.
Definition solanaKey (w : world) : option string := env_SOLANA_PRIVATE_KEY w.

(** Lines 42-55: the script needs a prompt and at least one key. *)
Definition check_args (w : world) : M string :=
  match or_else (prompt w) None with
  | None =>
      emit (ConsoleError ("Usage: [EVM_PRIVATE_KEY=0x... | SOLANA_PRIVATE_KEY=...] node scripts/x402-generate.mjs " ++ dq ++ "prompt" ++ dq ++ " [model] [duration] [agentId] [aspectRatio] [imageData]")) ;;
      emit (ConsoleError "Models: xai-grok-imagine (default), sora-2, sora-2-pro, fal-kling-o3") ;;
      emit (ConsoleError (nl ++ "Set EVM_PRIVATE_KEY for Base USDC or SOLANA_PRIVATE_KEY for Solana USDC.")) ;;
      process_exit 1
  | Some p =>
      when (negb (defined (evmKey w)) && negb (defined (solanaKey w)))
        (emit (ConsoleError "Error: Set EVM_PRIVATE_KEY (Base) or SOLANA_PRIVATE_KEY (Solana)") ;;
         process_exit 1) ;;
      ret p
  end.

(** ** Payment client (lines 57-108) *)

(** The two variables the setup assigns: whether [fetchWithPayment] holds a
    wrapped fetch, and the network label. *)
Record payment : Type := {
  fetchWithPayment : bool;
  paymentNetwork : string
}.

Definition setup_payment (w : world) : M payment :=
  let p0 := {| fetchWithPayment := false; paymentNetwork := "unknown" |} in
  p1 <- (if defined (solanaKey w) then
           if dexter_loads w then
             emit (ConsoleLog "💳 Payment: Solana USDC (via Dexter)") ;;
             ret {| fetchWithPayment := true; paymentNetwork := "solana" |}
           else
             emit (ConsoleWarn "⚠️  @dexterai/x402 not available, falling back to EVM") ;;
             ret p0
         else ret p0) ;;
  p2 <- (if negb (fetchWithPayment p1) && defined (evmKey w) then
           if x402_loads w then
             emit (ConsoleLog "💳 Payment: Base USDC (via x402)") ;;
             ret {| fetchWithPayment := true; paymentNetwork := "base" |}
           else if x402_legacy_loads w then
             emit (ConsoleLog "💳 Payment: Base USDC (via x402-fetch legacy)") ;;
             ret {| fetchWithPayment := true; paymentNetwork := "base" |}
           else
             emit (ConsoleError "Error: Could not initialize payment client. Install @dexterai/x402 or @x402/fetch + @x402/evm + viem") ;;
             process_exit 1
         else ret p1) ;;
  when (negb (fetchWithPayment p2))
    (emit (ConsoleError "Error: No payment client initialized") ;;
     process_exit 1) ;;
  ret p2.

(** ** Submission (lines 110-140) *)

(** [...(x && { name: x })] in an object literal: spreading [undefined] or a
    string adds nothing. *)
Definition spread_if (name : string) (x : option string) : list (string * value) :=
  match or_else x None with
  | Some s => [(name, VStr s)]
  | None => []
  end.

(** The object handed to [JSON.stringify] on line 122. *)
Definition request_body (w : world) (prompt : string) : value :=
  VObj ([("prompt", VStr prompt);
         ("videoModel", VStr (model w));
         ("duration", VNum (duration w));
         ("aspectRatio", VStr (aspectRatio w))]
        ++ spread_if "agentId" (agentId w)
        ++ spread_if "imageData" (imageData w)).

Definition announce (w : world) (prompt : string) : M unit :=
  emit (ConsoleLog (nl ++ "🎬 Generating video...")) ;;
  emit (ConsoleLog ("   Prompt:   " ++ dq ++ slice0 80 prompt
                    ++ (if (80 <? js_length prompt)%nat then "..." else "") ++ dq)) ;;
  emit (ConsoleLog ("   Model:    " ++ model w)) ;;
  emit (ConsoleLog ("   Duration: " ++ number_to_string (duration w) ++ "s")) ;;
  match or_else (agentId w) None with
  | Some a => emit (ConsoleLog ("   Agent:    " ++ a))
  | None => ret tt
  end ;;
  match or_else (imageData w) None with
  | Some img =>
      emit (ConsoleLog ("   Image:    " ++
                        (if startsWith "data:" img then "[base64]"
                         else slice0 60 img ++ "...")))
  | None => ret tt
  end ;;
  emit (ConsoleLog "").

(** [/^[1-9A-HJ-NP-Za-km-z]{80,90}$/.test(tx)]. *)
Definition base58_char (c : ascii) : bool :=
  let n := nat_of_ascii c in
  ((49 <=? n) && (n <=? 57)          (* 1-9 *)
   || (65 <=? n) && (n <=? 72)       (* A-H *)
   || (74 <=? n) && (n <=? 78)       (* J-N *)
   || (80 <=? n) && (n <=? 90)       (* P-Z *)
   || (97 <=? n) && (n <=? 107)      (* a-k *)
   || (109 <=? n) && (n <=? 122))%nat. (* m-z *)

Definition base58_80_90 (tx : string) : bool :=
  ((80 <=? length tx) && (length tx <=? 90))%nat
  && forallb base58_char (list_ascii_of_string tx).

(** Lines 135-137 and 177-179:
    [explorer || (network === 'solana' || re.test(tx) ? solscan : basescan)]. *)
Definition derived_explorer (network : string) (tx : value) : string :=
  if (network =? "solana")%string || base58_80_90 (to_string tx)
  then "https://solscan.io/tx/" ++ to_string tx
  else "https://basescan.org/tx/" ++ to_string tx.

Definition explorer_link (network : string) (explorer tx : value) : value :=
  JS.or explorer (VStr (derived_explorer network tx)).

(** Lines 127-140: what the script makes of the decoded answer. Returns
    [body] when it goes on to poll. *)
Definition check_response (pay : payment) (status : Z) (body : value) : M value :=
  rejected <- (if negb (status =? 202) then ret true
               else taskId <- get body "taskId" ;; ret (negb (truthy taskId))) ;;
  when rejected
    (emit (ConsoleError ("❌ Generation failed:" ++ " " ++ JSON_stringify_2 body)) ;;
     process_exit 1) ;;
  taskId <- get body "taskId" ;;
  emit (ConsoleLog ("✅ Queued: " ++ to_string taskId)) ;;
  txHash <- get body "txHash" ;;
  when (truthy txHash)
    (explorer <- get body "explorer" ;;
     emit (ConsoleLog ("💳 Payment: " ++
                       to_string (explorer_link (paymentNetwork pay) explorer txHash)))) ;;
  emit (ConsoleLog ("⏳ Polling..." ++ nl)) ;;
  ret body.

(** Lines 119-140: the one POST, then its answer. *)
Definition submit (w : world) (pay : payment) (prompt : string) : M value :=
  emit (FetchWithPayment (API_BASE ++ "/generation/create") "POST"
          [("Content-Type", "application/json")]
          (JSON_stringify (request_body w prompt))) ;;
  r <- await_json (create_response w) ;;
  check_response pay (fst r) (snd r).

(** ** Polling policy (lines 143-147) *)

Definition SLOW_MODELS : list string := ["fal-kling-o3"].

Definition isSlowModel (model : string) : bool :=
  existsb (fun m => startsWith m model || includes "kling" model) SLOW_MODELS.

Definition pollIntervalMs (model : string) : Z :=
  if isSlowModel model then 10000 else 5000.

Definition maxPolls (model : string) : Z :=
  if isSlowModel model then 120 else 120.

Definition timeoutLabel (model : string) : string :=
  if isSlowModel model then "20 minutes" else "10 minutes".

(** ** Polling loop (lines 149-194) *)

(** [(ms / 1000).toFixed(0)] for a difference of two clock readings: the
    nearest integer to the magnitude, halves upwards, behind the sign. *)
Definition toFixed0 (ms : Z) : string :=
  (if ms <? 0 then "-" else "") ++ Z_to_string ((Z.abs ms + 500) / 1000).

Definition cr : string := String (ascii_of_nat 13) "".

(** What one session keeps fixed: the network label, the task identifier
    and the model the policy is read from. *)
Record session : Type := {
  network : string;
  taskId : value;
  session_model : string
}.

Definition status_url (s : session) : string :=
  API_BASE ++ "/generation/" ++ to_string (taskId s) ++ "/status".

(** Lines 164-183, the branch taken on [status.status === 'completed']. *)
Definition report_completed (s : session) (status : value) (elapsed : string) : M unit :=
  result <- get status "result" ;;
  let gen := opt_member result "generation" in
  let video := opt_member gen "video" in
  let thumb := opt_member gen "image" in
  let gif := opt_member gen "gif" in
  let shareUrl := "https://clawdvine.sh/media/" ++ to_string (taskId s) in
  emit (ConsoleLog (nl ++ "🎉 Complete! (" ++ elapsed ++ "s)")) ;;
  emit (ConsoleLog ("🎬 Video: " ++ to_string video)) ;;
  when (truthy thumb) (emit (ConsoleLog ("🖼️  Thumb: " ++ to_string thumb))) ;;
  when (truthy gif) (emit (ConsoleLog ("🎞️  GIF:   " ++ to_string gif))) ;;
  emit (ConsoleLog ("🔗 Share: " ++ shareUrl)) ;;
  txHash <- get status "txHash" ;;
  when (truthy txHash)
    (explorer <- get status "explorer" ;;
     emit (ConsoleLog ("💳 TX:    " ++
                       to_string (explorer_link (network s) explorer txHash)))) ;;
  process_exit 0.

(** Lines 157-190, the body of the [for] loop at counter [i]. Returning
    means falling through to [i++]. *)
Definition poll_once (w : world) (s : session) (i : nat) : M unit :=
  emit (SetTimeout (pollIntervalMs (session_model s))) ;;
  emit (Fetch (status_url s)) ;;
  r <- await_json (poll_response w i) ;;
  let status := snd r in
  metadata <- get status "metadata" ;;
  let percent := opt_member metadata "percent" in
  pct <- (if truthy percent then ret percent
          else progress <- get status "progress" ;;
               ret (JS.or progress (VNum (Int 0)))) ;;
  let elapsed := toFixed0 (now_at_poll w i - now_at_start w) in
  st <- get status "status" ;;
  if is_string st "completed" then report_completed s status elapsed
  else if is_string st "failed" then
    error <- get status "error" ;;
    emit (ConsoleError (nl ++ "❌ Failed after " ++ elapsed ++ "s: " ++ to_string error)) ;;
    process_exit 1
  else
    emit (StdoutWrite (cr ++ "   " ++ to_string st ++ " " ++ to_string pct
                       ++ "% (" ++ elapsed ++ "s)")).

(** [for (let i = ...; i < maxPolls; i++)] with [todo] iterations left. *)
Fixpoint poll_loop (w : world) (s : session) (todo : nat) (i : nat) : M unit :=
  match todo with
  | O => ret tt
  | S todo' => poll_once w s i ;; poll_loop w s todo' (S i)
  end.

(** Lines 149-194. *)
Definition poll (w : world) (s : session) : M unit :=
  when (isSlowModel (session_model s))
    (emit (ConsoleLog ("ℹ️  Kling model detected — polling every "
                       ++ Z_to_string (pollIntervalMs (session_model s) / 1000)
                       ++ "s, timeout " ++ timeoutLabel (session_model s) ++ nl))) ;;
  poll_loop w s (Z.to_nat (maxPolls (session_model s))) 0 ;;
  emit (ConsoleError (nl ++ "❌ Timed out after " ++ timeoutLabel (session_model s))) ;;
  process_exit 1.

(** ** The script *)

Definition startup (w : world) : M (string * payment) :=
  p <- check_args w ;;
  pay <- setup_payment w ;;
  ret (p, pay).

(** Everything up to line 149: what the polling session is started with. *)
Definition before_polling (w : world) : M session :=
  sp <- startup w ;;
  let '(p, pay) := sp in
  announce w p ;;
  body <- submit w pay p ;;
  taskId <- get body "taskId" ;;
  ret {| network := paymentNetwork pay; taskId := taskId; session_model := model w |}.

Definition main (w : world) : M unit :=
  s <- before_polling w ;;
  poll w s.

(** The events of a run and how the process ends; a script that runs off its
    end exits with code 0. *)
Definition run (w : world) : list event * outcome :=
  match main w with
  | (t, inl _) => (t, Exited 0)
  | (t, inr o) => (t, o)
  end.

Definition trace (w : world) : list event := fst (run w).
Definition exit_status (w : world) : Z := exit_code (snd (run w)).

(** ** Reading a trace *)

Definition is_post (e : event) : bool :=
  match e with
  | FetchWithPayment _ _ _ _ => true
  | _ => false
  end.

Definition is_poll (e : event) : bool :=
  match e with
  | Fetch _ => true
  | _ => false
  end.

(** How many creation POSTs and how many status GETs a trace holds. *)
Definition posts (t : list event) : nat := List.length (filter is_post t).
Definition polls (t : list event) : nat := List.length (filter is_poll t).






(** Every event of a computation satisfies [P]. *)
Definition Emits {A} (P : event -> Prop) (m : M A) : Prop := Forall P (fst m).

Definition not_poll (e : event) : Prop := is_poll e = false.
Definition not_post (e : event) : Prop := is_post e = false.

(** The [toFixed(0)] seconds printed in iteration [i]. *)
Definition elapsed (w : world) (i : nat) : string :=
  toFixed0 (now_at_poll w i - now_at_start w).

(** *** The reports, as lists of lines

    What the branches of the script print when the payload could be read,
    written out as plain lists; the lemmas below show the script prints
    exactly these. *)

(** The line after [if (payload.txHash)], lines 133-139 and 175-181. *)
Definition payment_line (label network : string) (payload : value) : list event :=
  if truthy (opt_member payload "txHash") then
    [ConsoleLog (label ++ to_string (explorer_link network
                                       (opt_member payload "explorer")
                                       (opt_member payload "txHash")))]
  else [].






(** The decoded body of a response ([undefined] when there is none). *)
Definition payload (r : fetch_result) : value :=
  match r with
  | Response _ (Some body) => body
  | _ => VUndef
  end.


(** Lines 152-154. *)
Definition slow_notice (model : string) : list event :=
  if isSlowModel model then
    [ConsoleLog ("ℹ️  Kling model detected — polling every "
                 ++ Z_to_string (pollIntervalMs model / 1000)
                 ++ "s, timeout " ++ timeoutLabel model ++ nl)]
  else [].

(** *** Submission *)

(** The one payment-carrying request, lines 119-123. *)
Definition create_request (w : world) (prompt : string) : event :=
  FetchWithPayment (API_BASE ++ "/generation/create") "POST"
    [("Content-Type", "application/json")]
    (JSON_stringify (request_body w prompt)).

(** The decoded body contains a non-empty task identifier: it is an object
    with a [taskId] property that is not empty (not the empty string, nor
    any other value JavaScript takes for false). *)
Definition has_task_id (body : value) : bool :=
  match body with
  | VObj fields =>
      match lookup "taskId" fields with
      | Some id => truthy id
      | None => false
      end
  | _ => false
  end.

Definition accepted (status : Z) (body : value) : Prop :=
  status = 202 /\ has_task_id body = true.

Definition generation_failed (body : value) : event :=
  ConsoleError ("❌ Generation failed:" ++ " " ++ JSON_stringify_2 body).

(** What an accepted submission prints, lines 132-140. *)
Definition queued_report (network : string) (body : value) : list event :=
  [ConsoleLog ("✅ Queued: " ++ to_string (opt_member body "taskId"))]
  ++ payment_line "💳 Payment: " network body
  ++ [ConsoleLog ("⏳ Polling..." ++ nl)].

(** *** Sample runs *)

(** The request of the scenarios: prompt, model and duration on the command
    line, a Base key in the environment, the x402 client installed; the
    clock ticks once per polling interval. *)
Definition sample_world (create : fetch_result) (answers : nat -> fetch_result) : world :=
  {| argv := ["A sunset over mountains"; "xai-grok-imagine"; "8"];
     env_CLAWDVINE_AGENT_ID := None;
     env_EVM_PRIVATE_KEY := Some "0x0123";
     env_SOLANA_PRIVATE_KEY := None;
     dexter_loads := false;
     x402_loads := true;
     x402_legacy_loads := false;
     create_response := create;
     poll_response := answers;
     now_at_start := 0;
     now_at_poll := fun i => 5000 * Z.of_nat (S i) |}.

Definition queued_as (id : string) : fetch_result :=
  Response 202 (Some (VObj [("taskId", VStr id)])).

Definition running (percent : Z) : fetch_result :=
  Response 200 (Some (VObj [("status", VStr "running"); ("progress", VNum (Int percent))])).

Definition completed_with (video : string) : fetch_result :=
  Response 200
    (Some (VObj [("status", VStr "completed");
                 ("result", VObj [("generation", VObj [("video", VStr video)])])])).


(** First poll in progress, second poll completed. *)
Definition scenario_world : world :=
  sample_world (queued_as "task-1")
    (fun i => match i with
              | O => running 40
              | _ => completed_with "https://x/video.mp4"
              end).





(** *** The polling policy, in the specification's words *)

(** The tokens a model identifier is compared with: the entry of the slow
    list and the bare family name. *)
Definition slow_tokens : list string := SLOW_MODELS ++ ["kling"].

(** A model is in the slow set when some token is a prefix of it or occurs
    in it. *)
Definition matches_slow_set (model : string) : bool :=
  existsb (fun token => startsWith token model || includes token model) slow_tokens.

Record PollingPolicy : Type := {
  intervalMilliseconds : Z;
  maxAttempts : Z;
  timeoutLabelText : string
}.

Definition slow_policy : PollingPolicy :=
  {| intervalMilliseconds := 10000; maxAttempts := 120; timeoutLabelText := "20 minutes" |}.

Definition fast_policy : PollingPolicy :=
  {| intervalMilliseconds := 5000; maxAttempts := 120; timeoutLabelText := "10 minutes" |}.

(** The policy the script's three constants amount to. *)
Definition policy_of (model : string) : PollingPolicy :=
  {| intervalMilliseconds := pollIntervalMs model;
     maxAttempts := maxPolls model;
     timeoutLabelText := timeoutLabel model |}.

(** Every timer of a trace waits for the same interval. *)
Definition waits_for (ms : Z) (e : event) : Prop :=
  match e with
  | SetTimeout ms' => ms' = ms
  | _ => True
  end.

Definition no_timer (e : event) : Prop :=
  match e with
  | SetTimeout _ => False
  | _ => True
  end.

(** *** The signature pattern, in the specification's words *)

Definition base58_alphabet : string :=
  "123456789ABCDEFGHJKLMNPQRSTUVWXYZabcdefghijkmnopqrstuvwxyz".

(** Base-58 text of 80 to 90 characters. *)
Definition signature_pattern (tx : string) : Prop :=
  (80 <= length tx <= 90)%nat
  /\ Forall (fun c => In c (list_ascii_of_string base58_alphabet))
            (list_ascii_of_string tx).

(** An 88-character Solana transaction signature. *)
Definition sample_signature : string :=
  "5VERv8NMvzbJMEkV8xnrLkEaWRtSz9CosKDYjCJjBRnbJLgp8uirBgmQpjKhoR4tjF3ZpRzrFmBV6UjKdiSZkQUW".



(** ** More of the script: start-up, the log, and how every run ends *)

(** A world given by its command line and environment; the clock ticks once
    per fast polling interval. *)
Definition world_of (args : list string) (agent evm solana : option string)
    (dexter x402 legacy : bool)
    (create : fetch_result) (answers : nat -> fetch_result) : world :=
  {| argv := args;
     env_CLAWDVINE_AGENT_ID := agent;
     env_EVM_PRIVATE_KEY := evm;
     env_SOLANA_PRIVATE_KEY := solana;
     dexter_loads := dexter;
     x402_loads := x402;
     x402_legacy_loads := legacy;
     create_response := create;
     poll_response := answers;
     now_at_start := 0;
     now_at_poll := fun i => 5000 * Z.of_nat (S i) |}.

(** Lines written to standard error. *)
Definition is_stderr (e : event) : Prop :=
  match e with
  | ConsoleWarn _ | ConsoleError _ => True
  | _ => False
  end.

(** Console output of any kind: no request, no timer. *)
Definition is_console (e : event) : Prop :=
  match e with
  | FetchWithPayment _ _ _ _ | Fetch _ | SetTimeout _ => False
  | _ => True
  end.

(** Which network the payment setup of lines 57-108 ends up with, if any:
    Solana when the Solana key is set and the Dexter client loads, else Base
    when the EVM key is set and one of the two x402 clients loads. *)
Definition selected_network (w : world) : option string :=
  if defined (solanaKey w) && dexter_loads w then Some "solana"
  else if defined (evmKey w) && (x402_loads w || x402_legacy_loads w) then Some "base"
  else None.






(** Neither a timer nor a status request. *)
Definition quiet (e : event) : Prop :=
  match e with
  | SetTimeout _ | Fetch _ => False
  | _ => True
  end.

(** Timers and status requests come in pairs: each request sits right
    behind a timer of [ms] milliseconds and goes to [url]. *)
Fixpoint paced (ms : Z) (url : string) (t : list event) : bool :=
  match t with
  | [] => true
  | SetTimeout m :: rest =>
      match rest with
      | Fetch u :: rest' => (m =? ms) && (u =? url)%string && paced ms url rest'
      | _ => false
      end
  | Fetch _ :: _ => false
  | _ :: rest => paced ms url rest
  end.


(** The status URL of lines 159, for the task identifier the creation
    answer brought. *)
Definition expected_status_url (w : world) : string :=
  API_BASE ++ "/generation/"
  ++ to_string (opt_member (payload (create_response w)) "taskId") ++ "/status".

(** The prompt line of the log, line 112. *)
Definition prompt_preview (prompt : string) : event :=
  ConsoleLog ("   Prompt:   " ++ dq ++ slice0 80 prompt
              ++ (if (80 <? js_length prompt)%nat then "..." else "") ++ dq).

(** * x402-image.mjs: pay for one image

    The sibling script [scripts/x402-image.mjs]: the same arguments check
    and payment setup (with its own messages and defaults), one POST to the
    MCP endpoint, and the answer printed. It reads the same [world]: the
    answer to its POST is [create_response]. What [console.log] makes of a
    value that is not a string is the host's [util.inspect], a parameter. *)

Module Image.

Section Script.

(** [util.inspect], as [console.log] applies it to a value that is not a
    string. *)
Variable inspect : value -> string.

(** [console.log(v)]. *)
Definition console_log (v : value) : M unit :=
  emit (ConsoleLog match v with
                   | VStr s => s
                   | _ => inspect v
                   end).

(** Lines 16-18. *)
Definition prompt (w : world) : option string := process_argv w 2.
Definition aspectRatio (w : world) : string := or_default (process_argv w 3) "9:16".
Definition agentId (w : world) : string :=
  or_default (or_else (process_argv w 4) (or_else (env_CLAWDVINE_AGENT_ID w) None))
             "1:22831".

(** Lines 20-28. *)
Definition check_args (w : world) : M string :=
  match or_else (prompt w) None with
  | None =>
      emit (ConsoleError ("Usage: [EVM_PRIVATE_KEY=0x... | SOLANA_PRIVATE_KEY=...] node scripts/x402-image.mjs " ++ dq ++ "prompt" ++ dq ++ " [aspectRatio] [agentId]")) ;;
      process_exit 1
  | Some p =>
      when (negb (defined (evmKey w)) && negb (defined (solanaKey w)))
        (emit (ConsoleError "Error: Set EVM_PRIVATE_KEY (Base) or SOLANA_PRIVATE_KEY (Solana)") ;;
         process_exit 1) ;;
      ret p
  end.

(** Lines 30-80. *)
Definition setup_payment (w : world) : M payment :=
  let p0 := {| fetchWithPayment := false; paymentNetwork := "unknown" |} in
  p1 <- (if defined (solanaKey w) then
           if dexter_loads w then
             emit (ConsoleLog "💳 Payment: Solana USDC (via Dexter)") ;;
             ret {| fetchWithPayment := true; paymentNetwork := "solana" |}
           else
             emit (ConsoleWarn "[x402] @dexterai/x402 not available, falling back to EVM") ;;
             ret p0
         else ret p0) ;;
  p2 <- (if negb (fetchWithPayment p1) && defined (evmKey w) then
           if x402_loads w then
             emit (ConsoleLog "💳 Payment: Base USDC (via x402)") ;;
             ret {| fetchWithPayment := true; paymentNetwork := "base" |}
           else if x402_legacy_loads w then
             emit (ConsoleLog "💳 Payment: Base USDC (via x402-fetch legacy)") ;;
             ret {| fetchWithPayment := true; paymentNetwork := "base" |}
           else
             emit (ConsoleError "Error: Could not initialize payment client.") ;;
             process_exit 1
         else ret p1) ;;
  when (negb (fetchWithPayment p2))
    (emit (ConsoleError "Error: No payment client initialized") ;;
     process_exit 1) ;;
  ret p2.

(** Lines 82-85. *)
Definition announce (w : world) (prompt : string) : M unit :=
  emit (ConsoleLog (nl ++ "🖼️  Generating image...")) ;;
  emit (ConsoleLog ("   Prompt: " ++ dq ++ slice0 80 prompt
                    ++ (if (80 <? js_length prompt)%nat then "..." else "") ++ dq)) ;;
  emit (ConsoleLog ("   Ratio:  " ++ aspectRatio w)) ;;
  emit (ConsoleLog ("   Agent:  " ++ agentId w ++ nl)).

(** The JSON-RPC call of lines 90-93. *)
Definition request_body (w : world) (prompt : string) : value :=
  VObj [("jsonrpc", VStr "2.0");
        ("id", VNum (Int 1));
        ("method", VStr "tools/call");
        ("params",
         VObj [("name", VStr "generate_image");
               ("arguments",
                VObj [("prompt", VStr prompt);
                      ("agentId", VStr (agentId w));
                      ("aspectRatio", VStr (aspectRatio w))])])].

(** Lines 99-102, for one item [c] of the content. *)
Definition render_item (c : value) : M unit :=
  type <- get c "type" ;;
  when (is_string type "text")
    (text <- get c "text" ;; console_log text) ;;
  type' <- get c "type" ;;
  when (is_string type' "image")
    (data <- get c "data" ;;
     shown <- (if truthy data then ret data
               else url <- get c "url" ;;
                    ret (JS.or url (VStr (JSON_stringify c)))) ;;
     emit (ConsoleLog ("🖼️  Image: " ++ to_string shown))).

Fixpoint render_items (items : list value) : M unit :=
  match items with
  | [] => ret tt
  | c :: rest => render_item c ;; render_items rest
  end.

(** [for (const c of content)] on a value that passed the [if]: an array
    gives its elements; a string gives its characters, none of which has a
    [type]; anything else is not iterable. *)
Definition for_each_item (content : value) : M unit :=
  match content with
  | VArr items => render_items items
  | VStr _ => ret tt
  | _ => throw (TypeError "Symbol.iterator")
  end.

(** Lines 96-105. *)
Definition print_answer (data : value) : M unit :=
  result <- get data "result" ;;
  let content := opt_member result "content" in
  if truthy content then for_each_item content
  else emit (ConsoleLog (JSON_stringify_2 data)).

Definition startup (w : world) : M (string * payment) :=
  p <- check_args w ;;
  pay <- setup_payment w ;;
  ret (p, pay).

Definition main (w : world) : M unit :=
  sp <- startup w ;;
  announce w (fst sp) ;;
  emit (FetchWithPayment (API_BASE ++ "/mcp") "POST"
          [("Content-Type", "application/json")]
          (JSON_stringify (request_body w (fst sp)))) ;;
  r <- await_json (create_response w) ;;
  print_answer (snd r).

(** The script has no [process.exit] after the request: it runs off its
    end, which is exit code 0. *)
Definition run (w : world) : list event * outcome :=
  match main w with
  | (t, inl _) => (t, Exited 0)
  | (t, inr o) => (t, o)
  end.


End Script.

End Image.

(** * check-balance.mjs: the token balance of an address

    [scripts/check-balance.mjs]: one [eth_call] to the Base RPC endpoint,
    the answer read as a [BigInt], scaled down by 18 decimals, compared with
    the 10,000,000 token threshold, reported as JSON, and turned into the
    exit code.

    Text here is ASCII text: what [slice], [toLowerCase] and [padStart]
    make of an address with characters outside ASCII is not modelled. The
    grouping [toLocaleString] applies to a number is the host's, a
    parameter. *)

Module Balance.

Definition IMAGINE_TOKEN : string := "0x963e83082e0500ce5Da98c78E79A49C09084Bb07".
Definition BASE_RPC : string := "https://mainnet.base.org".
Definition MIN_BALANCE : Z := 10000000.
Definition DECIMALS : Z := 18.
Definition BALANCE_OF_SELECTOR : string := "0x70a08231".

(** What the script reads from outside. *)
Record world : Type := {
  (** [process.argv[2]]. *)
  argv2 : option string;
  EVM_PRIVATE_KEY : option string;
  (** [privateKeyToAccount(key).address], or [None] when the import or the
      derivation throws. *)
  account_address : string -> option string;
  (** The answer of the RPC endpoint. *)
  rpc_response : fetch_result
}.

(** What the script does. *)
Inductive call : Type :=
| Log (line : string)
| Err (line : string)
| Post (url : string) (headers : list (string * string)) (body : string).

Inductive failure : Type :=
| AccountFails
| TransportFails
| NotJson
| NoObject          (* destructuring [null] *)
| NotAnInteger.     (* [BigInt] refuses its argument *)

Inductive ending : Type :=
| Exit (code : Z)
| Throws (f : failure).

(** Node's exit code. *)
Definition exit_code (e : ending) : Z :=
  match e with
  | Exit code => code
  | Throws _ => 1
  end.

(** *** The call data (lines 34-35) *)

Definition lower (c : ascii) : ascii :=
  let n := nat_of_ascii c in
  if ((65 <=? n) && (n <=? 90))%nat then ascii_of_nat (n + 32) else c.

(** [s.toLowerCase()]. *)
Fixpoint toLowerCase (s : string) : string :=
  match s with
  | EmptyString => EmptyString
  | String c rest => String (lower c) (toLowerCase rest)
  end.

Fixpoint zeros (n : nat) : string :=
  match n with
  | O => ""
  | S n' => String "0" (zeros n')
  end.

(** [s.padStart(n, '0')]: filled up from the left, never cut. *)
Definition padStart0 (n : nat) (s : string) : string :=
  zeros (n - length s) ++ s.

Definition paddedAddress (address : string) : string :=
  padStart0 64 (toLowerCase (drop 2 address)).

Definition callData (address : string) : string :=
  BALANCE_OF_SELECTOR ++ paddedAddress address.

(** The JSON-RPC request of lines 41-46. *)
Definition request_body (address : string) : value :=
  VObj [("jsonrpc", VStr "2.0");
        ("id", VNum (Int 1));
        ("method", VStr "eth_call");
        ("params",
         VArr [VObj [("to", VStr IMAGINE_TOKEN); ("data", VStr (callData address))];
               VStr "latest"])].

(** *** [BigInt] (line 50) *)

Definition digit_value (c : ascii) : option Z :=
  let n := Z.of_nat (nat_of_ascii c) in
  if (48 <=? n) && (n <=? 57) then Some (n - 48)
  else if (97 <=? n) && (n <=? 122) then Some (n - 87)
  else if (65 <=? n) && (n <=? 90) then Some (n - 55)
  else None.

(** The digits of [s] in the given base; at least one, and nothing else. *)
Fixpoint digits_from (base acc : Z) (s : string) : option Z :=
  match s with
  | EmptyString => Some acc
  | String c rest =>
      match digit_value c with
      | Some d => if d <? base then digits_from base (base * acc + d) rest else None
      | None => None
      end
  end.

Definition digits (base : Z) (s : string) : option Z :=
  match s with
  | EmptyString => None
  | _ => digits_from base 0 s
  end.

Fixpoint trim_end (s : string) : string :=
  match s with
  | EmptyString => ""
  | String c rest =>
      if (skip_spaces s =? "")%string then "" else String c (trim_end rest)
  end.

(** StringToBigInt: white space trimmed; nothing is 0; a prefix [0x], [0o]
    or [0b] in either case with digits of that base; or decimal digits
    behind an optional sign. [None] is the SyntaxError. *)
Definition StringToBigInt (s : string) : option Z :=
  match trim_end (skip_spaces s) with
  | EmptyString => Some 0
  | String "0" (String "x" rest) | String "0" (String "X" rest) => digits 16 rest
  | String "0" (String "o" rest) | String "0" (String "O" rest) => digits 8 rest
  | String "0" (String "b" rest) | String "0" (String "B" rest) => digits 2 rest
  | String "-" rest => option_map Z.opp (digits 10 rest)
  | String "+" rest => digits 10 rest
  | t => digits 10 t
  end.

(** [BigInt(v)]: a number must be whole, a boolean is 0 or 1, [null] and
    [undefined] are refused, and everything else goes through its string. *)
Definition BigInt (v : value) : option Z :=
  match v with
  | VUndef | VNull => None
  | VBool b => Some (if b then 1 else 0)
  | VNum NaN => None
  | VNum (Int z) => Some z
  | VStr s => StringToBigInt s
  | VArr _ | VObj _ => StringToBigInt (to_string v)
  end.

(** *** [Number] of a [BigInt] (line 51) *)

Inductive number : Type :=
| Finite (z : Z)
| Infinity
| NegInfinity.

(** The nearest double to a natural number: whole below 2^53, beyond that
    rounded to 53 significant bits, halves to the even neighbour. *)
Definition nearest_double (n : Z) : Z :=
  let bits := Z.log2 n + 1 in
  if bits <=? 53 then n
  else
    let e := bits - 53 in
    let q := n / 2 ^ e in
    let r := n mod 2 ^ e in
    let half := 2 ^ (e - 1) in
    (if (half <? r) || ((r =? half) && Z.odd q) then q + 1 else q) * 2 ^ e.

Definition Number (z : Z) : number :=
  let m := nearest_double (Z.abs z) in
  if 2 ^ 1024 <=? m then (if z <? 0 then NegInfinity else Infinity)
  else Finite (Z.sgn z * m).

(** [x >= MIN_BALANCE]. *)
Definition at_least (x : number) (bound : Z) : bool :=
  match x with
  | Finite z => bound <=? z
  | Infinity => true
  | NegInfinity => false
  end.

Section Script.

(** [x.toLocaleString()] in the host's locale. *)
Variable toLocaleString : number -> string.

(** Lines 21-31: the address of the command line, else the one of the key. *)
Definition address (w : world) : option string + failure :=
  match or_else (argv2 w) None with
  | Some a => inl (Some a)
  | None =>
      match or_else (EVM_PRIVATE_KEY w) None with
      | Some key =>
          match account_address w key with
          | Some a => inl (or_else (Some a) None)
          | None => inr AccountFails
          end
      | None => inl None
      end
  end.

(** Line 50. *)
Definition rawBalance (result : value) : option Z :=
  if negb (truthy result) || is_string result "0x" then Some 0
  else BigInt result.

(** Line 51: BigInt division cuts towards zero. *)
Definition humanBalance (raw : Z) : number :=
  Number (Z.quot raw (10 ^ DECIMALS)).

Definition eligible (raw : Z) : bool := at_least (humanBalance raw) MIN_BALANCE.

(** Lines 54-62. *)
Definition output (address : string) (raw : Z) : value :=
  VObj [("address", VStr address);
        ("tokenAddress", VStr IMAGINE_TOKEN);
        ("chain", VStr "base");
        ("rawBalance", VStr (Z_to_string raw));
        ("balance", VStr (toLocaleString (humanBalance raw)));
        ("requiredBalance", VStr (toLocaleString (Finite MIN_BALANCE)));
        ("eligible", VBool (eligible raw))].

Definition rpc_request (address : string) : call :=
  Post BASE_RPC [("Content-Type", "application/json")]
       (JSON_stringify (request_body address)).

(** Lines 49-69, once the answer is decoded. *)
Definition report (address : string) (body : value) : list call * ending :=
  match member body "result" with
  | None => ([], Throws NoObject)
  | Some result =>
      match rawBalance result with
      | None => ([], Throws NotAnInteger)
      | Some raw =>
          if eligible raw then
            ([Log (JSON_stringify_2 (output address raw))], Exit 0)
          else
            ([Log (JSON_stringify_2 (output address raw));
              Err (nl ++ "⚠️  Insufficient balance: "
                   ++ toLocaleString (humanBalance raw) ++ " / "
                   ++ toLocaleString (Finite MIN_BALANCE) ++ " $CLAWDVINE required")],
             Exit 1)
      end
  end.

(** The script. *)
Definition run (w : world) : list call * ending :=
  match address w with
  | inr f => ([], Throws f)
  | inl None =>
      ([Err "Usage: node check-balance.mjs <address>";
        Err "   or: EVM_PRIVATE_KEY=0x... node check-balance.mjs"],
       Exit 1)
  | inl (Some a) =>
      match rpc_response w with
      | FetchRejects => ([rpc_request a], Throws TransportFails)
      | Response _ None => ([rpc_request a], Throws NotJson)
      | Response _ (Some body) =>
          let '(t, e) := report a body in (rpc_request a :: t, e)
      end
  end.

End Script.

(** A world for the examples: the address on the command line. *)
Definition asked (a : string) (answer : fetch_result) : world :=
  {| argv2 := Some a; EVM_PRIVATE_KEY := None;
     account_address := fun _ => None; rpc_response := answer |}.

Definition answers (result : string) : fetch_result :=
  Response 200 (Some (VObj [("jsonrpc", VStr "2.0"); ("id", VNum (Int 1));
                            ("result", VStr result)])).

(** An answer without a result: the error object of JSON-RPC. *)
Definition refuses (message : string) : fetch_result :=
  Response 200 (Some (VObj [("jsonrpc", VStr "2.0"); ("id", VNum (Int 1));
                            ("error", VObj [("code", VNum (Int (-32000)));
                                            ("message", VStr message)])])).

(** The account is derived from the key. *)
Definition keyed (key a : string) (answer : fetch_result) : world :=
  {| argv2 := None; EVM_PRIVATE_KEY := Some key;
     account_address := fun k => if (k =? key)%string then Some a else None;
     rpc_response := answer |}.

(** Hexadecimal digits only, as in the words an [eth_call] returns. *)
Definition hex_digit (c : ascii) : bool :=
  match digit_value c with
  | Some d => d <? 16
  | None => false
  end.

Fixpoint hex_word (s : string) : bool :=
  match s with
  | EmptyString => true
  | String c rest => hex_digit c && hex_word rest
  end.

Definition is_post (c : call) : bool :=
  match c with
  | Post _ _ _ => true
  | _ => false
  end.

(** Lines 28-29. *)
Definition usage : list call :=
  [Err "Usage: node check-balance.mjs <address>";
   Err "   or: EVM_PRIVATE_KEY=0x... node check-balance.mjs"].

(** Line 66. *)
Section Warning.
Variable toLocaleString : number -> string.
Definition warning (raw : Z) : string :=
  nl ++ "⚠️  Insufficient balance: "
     ++ toLocaleString (humanBalance raw) ++ " / "
     ++ toLocaleString (Finite MIN_BALANCE) ++ " $CLAWDVINE required".
End Warning.

(** A host that prints numbers without grouping; enough for the examples. *)
Definition plain (x : number) : string :=
  match x with
  | Finite z => Z_to_string z
  | Infinity => "∞"
  | NegInfinity => "-∞"
  end.

End Balance.

(** * build-tar.mjs

    The script that packs the distribution. What it meets outside (the
    file system and the [tar] command) is the [world]; paths are put
    together by the host's [path.join], a parameter. *)

Module Tar.

Definition INCLUDE : list string :=
  ["SKILL.md";
   "README.md";
   "package.json";
   "scripts/sign-siwe.mjs";
   "scripts/check-balance.mjs";
   "scripts/x402-generate.mjs";
   "references/api-reference.md"].

Record world : Type := {
  (** The directory of the script. *)
  dirname : string;
  (** [mkdirSync(DIST, { recursive: true })] throws. *)
  mkdir_fails : bool;
  (** [statSync(path)] returns, before the archive is made. *)
  found : string -> bool;
  (** [execSync(command)]: the message of what it throws, if it does. *)
  tar_fails : string -> option string;
  (** [statSync(OUTPUT)] afterwards: the message of what it throws, or the
      size in bytes. *)
  archive : string + N
}.

Inductive call : Type :=
| Mkdir (path : string)
| Warn (line : string)
| Exec (command cwd : string)
| Log (line : string)
| Err (line : string).

Inductive ending : Type :=
| Exit (code : Z)
| Throws.

Definition exit_code (e : ending) : Z :=
  match e with
  | Exit code => code
  | Throws => 1
  end.

(** [(size / 1024).toFixed(1)]: the division by 1024 is exact, and of the
    tenths nearest to it the larger one is taken. *)
Definition tenths (size : N) : Z := (10 * Z.of_N size + 512) / 1024.

Definition sizeKB (size : N) : string :=
  Z_to_string (tenths size / 10) ++ "." ++ Z_to_string (tenths size mod 10).

Definition quoted (f : string) : string := dq ++ f ++ dq.

Section Script.

Variable path_join : string -> string -> string.

Definition ROOT (w : world) : string := path_join (dirname w) "..".
Definition DIST (w : world) : string := path_join (ROOT w) "dist".
Definition OUTPUT (w : world) : string := path_join (DIST w) "clawdvine-skill.tar.gz".

(** Lines 40-48: the filter, with the warnings it prints on the way. *)
Fixpoint filter_found (w : world) (l : list string) : list call * list string :=
  match l with
  | [] => ([], [])
  | f :: rest =>
      let '(warnings, files) := filter_found w rest in
      if found w (path_join (ROOT w) f) then (warnings, f :: files)
      else (Warn ("⚠️  Skipping missing file: " ++ f) :: warnings, files)
  end.

Definition filesToInclude (w : world) : list string := snd (filter_found w INCLUDE).

(** Line 50. *)
Definition tarCmd (w : world) : string :=
  "tar -czf " ++ dq ++ OUTPUT w ++ dq ++ " " ++ join " " (map quoted (filesToInclude w)).

Definition failed (message : string) : call :=
  Err ("❌ Failed to build tarball: " ++ message).

(** Lines 54-60. *)
Definition built (w : world) (size : N) : list call :=
  ([Log (nl ++ "✅ Built: " ++ OUTPUT w);
    Log ("   Size: " ++ sizeKB size ++ " KB");
    Log ("   Files: " ++ Z_to_string (Z.of_nat (List.length (filesToInclude w))));
    Log (nl ++ "Included:")]
   ++ map (fun f => Log ("   - " ++ f)) (filesToInclude w))%list.

(** The script. *)
Definition run (w : world) : list call * ending :=
  if mkdir_fails w then ([Mkdir (DIST w)], Throws)
  else
    let before := (Mkdir (DIST w) :: fst (filter_found w INCLUDE)
                     ++ [Exec (tarCmd w) (ROOT w)])%list in
    match tar_fails w (tarCmd w) with
    | Some message => ((before ++ [failed message])%list, Exit 1)
    | None =>
        match archive w with
        | inl message => ((before ++ [failed message])%list, Exit 1)
        | inr size => ((before ++ built w size)%list, Exit 0)
        end
    end.

End Script.

Definition is_warning (c : call) : bool :=
  match c with
  | Warn _ => true
  | _ => false
  end.

Definition is_exec (c : call) : bool :=
  match c with
  | Exec _ _ => true
  | _ => false
  end.

Definition is_log (c : call) : bool :=
  match c with
  | Log _ => true
  | _ => false
  end.

Definition missing_file (f : string) : call :=
  Warn ("⚠️  Skipping missing file: " ++ f).

(** A host with POSIX paths, for the examples. *)
Fixpoint parent (s : string) : string :=
  match s with
  | EmptyString => ""
  | String c rest =>
      if existsb (Ascii.eqb "/") (list_ascii_of_string rest)
      then String c (parent rest) else ""
  end.

Definition posix_join (a b : string) : string :=
  if (b =? "..")%string then parent a else a ++ "/" ++ b.

Definition checkout (present : list string) (size : N) : world :=
  {| dirname := "/repo/scripts";
     mkdir_fails := false;
     found := fun p => existsb (fun f => (p =? "/repo/" ++ f)%string) present;
     tar_fails := fun _ => None;
     archive := inr size |}.

End Tar.

(** * sign-siwe.mjs

    The script that prints the sign-in headers. The packages it imports
    (viem, siwe), the random number and the clock are the [world]. *)

Module Siwe.

Definition DOMAIN : string := "api.clawdvine.sh".
Definition URI : string := "https://api.clawdvine.sh".
Definition CHAIN_ID : Z := 8453.

(** What [new SiweMessage] is given. *)
Record fields : Type := {
  domain : string;
  address : string;
  statement : string;
  uri : string;
  version : string;
  chainId : Z;
  nonce : string;
  issuedAt : string
}.

Record world : Type := {
  (** The static imports of lines 13-16 resolve. *)
  packages_load : bool;
  EVM_PRIVATE_KEY : option string;
  (** [privateKeyToAccount(key).address], unless it throws. *)
  account_address : string -> option string;
  (** [Math.random().toString(36)]. *)
  random_base36 : string;
  (** [new Date().toISOString()]. *)
  now : string;
  (** [new SiweMessage(fields).prepareMessage()], unless either throws. *)
  prepareMessage : fields -> option string;
  (** [account.signMessage({ message })] for the account of the key, unless
      it rejects. *)
  signMessage : string -> string -> option string
}.

Inductive call : Type :=
| Log (line : string)
| Err (line : string).

Inductive failure : Type :=
| ImportFails
| AccountFails
| MessageFails
| SigningFails.

Inductive ending : Type :=
| Exit (code : Z)
| Throws (f : failure).

Definition exit_code (e : ending) : Z :=
  match e with
  | Exit code => code
  | Throws _ => 1
  end.

(** *** [Buffer.from(message).toString('base64')]

    A string is the bytes of its UTF-8 form, so [Buffer.from] changes
    nothing. *)

Definition base64_alphabet : string :=
  "ABCDEFGHIJKLMNOPQRSTUVWXYZabcdefghijklmnopqrstuvwxyz0123456789+/".

Definition base64_char (n : nat) : ascii :=
  match String.get n base64_alphabet with
  | Some c => c
  | None => "="%char
  end.

Fixpoint base64_bytes (bytes : list nat) : string :=
  match bytes with
  | [] => ""
  | [a] =>
      String (base64_char (a / 4))
        (String (base64_char (a mod 4 * 16)) "==")
  | [a; b] =>
      String (base64_char (a / 4))
        (String (base64_char (a mod 4 * 16 + b / 16))
           (String (base64_char (b mod 16 * 4)) "="))
  | a :: b :: c :: rest =>
      String (base64_char (a / 4))
        (String (base64_char (a mod 4 * 16 + b / 16))
           (String (base64_char (b mod 16 * 4 + c / 64))
              (String (base64_char (c mod 64)) (base64_bytes rest))))
  end.

Definition base64 (s : string) : string :=
  base64_bytes (map nat_of_ascii (list_ascii_of_string s)).

(** *** The script *)

(** Line 31: [substring(2, 10)] of the random number in base 36. *)
Definition new_nonce (w : world) : string := substring 2 8 (random_base36 w).

(** Lines 32-41. *)
Definition siweMessage (w : world) (account : string) : fields :=
  {| domain := DOMAIN;
     address := account;
     statement := "Joining ClawdVine Agentic Media Network";
     uri := URI;
     version := "1";
     chainId := CHAIN_ID;
     nonce := new_nonce w;
     issuedAt := now w |}.

(** Lines 49-53. *)
Definition headers (signature message account : string) : value :=
  VObj [("X-EVM-SIGNATURE", VStr signature);
        ("X-EVM-MESSAGE", VStr (base64 message));
        ("X-EVM-ADDRESS", VStr account)].

Definition run (w : world) : list call * ending :=
  if negb (packages_load w) then ([], Throws ImportFails)
  else
    match or_else (EVM_PRIVATE_KEY w) None with
    | None =>
        ([Err "Error: EVM_PRIVATE_KEY env var is required (0x-prefixed hex)"], Exit 1)
    | Some key =>
        match account_address w key with
        | None => ([], Throws AccountFails)
        | Some account =>
            match prepareMessage w (siweMessage w account) with
            | None => ([], Throws MessageFails)
            | Some message =>
                match signMessage w key message with
                | None => ([], Throws SigningFails)
                | Some signature =>
                    ([Log (JSON_stringify_2 (headers signature message account))],
                     Exit 0)
                end
            end
        end
    end.

(** Only letters, digits, [+], [/] and [=]. *)
Definition header_safe (c : ascii) : bool :=
  existsb (Ascii.eqb c) (list_ascii_of_string base64_alphabet) || Ascii.eqb c "=".

(** A world for the examples. *)
Definition signer (key account random : string) : world :=
  {| packages_load := true;
     EVM_PRIVATE_KEY := Some key;
     account_address := fun _ => Some account;
     random_base36 := random;
     now := "2026-01-01T00:00:00.000Z";
     prepareMessage := fun f =>
       Some (domain f ++ " wants you to sign in with your Ethereum account:"
             ++ nl ++ address f ++ nl ++ nl ++ statement f ++ nl ++ nl
             ++ "Nonce: " ++ nonce f);
     signMessage := fun _ _ => Some "0xsigned" |}.

End Siwe.

(** * Properties *)

(** ** The model at work *)

Example parseInt10_examples :
  parseInt10 "8" = Int 8 /\ parseInt10 "  -12px" = Int (-12)
  /\ parseInt10 "ten" = NaN /\ parseInt10 "" = NaN.
Proof. repeat split. Qed.

Example toFixed0_examples :
  toFixed0 5012 = "5" /\ toFixed0 5500 = "6" /\ toFixed0 499 = "0"
  /\ toFixed0 (-400) = "-0".
Proof. repeat split. Qed.

Example isSlowModel_examples :
  isSlowModel "fal-kling-o3" = true /\ isSlowModel "kling-v2-master" = true
  /\ isSlowModel "sora-2" = false /\ isSlowModel "xai-grok-imagine" = false.
Proof. repeat split. Qed.

Example truthy_examples :
  truthy (VStr "") = false /\ truthy (VStr "0") = true
  /\ truthy (VNum (Int 0)) = false /\ truthy (VObj []) = true.
Proof. repeat split. Qed.

Example member_examples :
  member VNull "taskId" = None
  /\ member (VObj []) "taskId" = Some VUndef
  /\ member (VStr "task") "taskId" = Some VUndef
  /\ opt_member VNull "generation" = VUndef.
Proof. repeat split. Qed.

Example scenario_run :
  run scenario_world =
  ([ConsoleLog "💳 Payment: Base USDC (via x402)";
    ConsoleLog (nl ++ "🎬 Generating video...");
    ConsoleLog ("   Prompt:   " ++ dq ++ "A sunset over mountains" ++ dq);
    ConsoleLog "   Model:    xai-grok-imagine";
    ConsoleLog "   Duration: 8s";
    ConsoleLog "";
    create_request scenario_world "A sunset over mountains";
    ConsoleLog "✅ Queued: task-1";
    ConsoleLog ("⏳ Polling..." ++ nl);
    SetTimeout 5000;
    Fetch "https://api.clawdvine.sh/generation/task-1/status";
    StdoutWrite (cr ++ "   running 40% (5s)");
    SetTimeout 5000;
    Fetch "https://api.clawdvine.sh/generation/task-1/status";
    ConsoleLog (nl ++ "🎉 Complete! (10s)");
    ConsoleLog "🎬 Video: https://x/video.mp4";
    ConsoleLog "🔗 Share: https://clawdvine.sh/media/task-1"],
   Exited 0).
Proof. reflexivity. Qed.

Example no_prompt_run :
  snd (run {| argv := []; env_CLAWDVINE_AGENT_ID := None;
              env_EVM_PRIVATE_KEY := Some "0x0123"; env_SOLANA_PRIVATE_KEY := None;
              dexter_loads := true; x402_loads := true; x402_legacy_loads := true;
              create_response := queued_as "task-1";
              poll_response := fun _ => running 10;
              now_at_start := 0; now_at_poll := fun _ => 0 |})
  = Exited 1.
Proof. reflexivity. Qed.

(** ** The monad *)

Lemma bind_ret {A B} (a : A) (k : A -> M B) : bind (ret a) k = k a.
Proof. unfold bind, ret. destruct (k a) as [t r]. reflexivity. Qed.

Lemma bind_emit {B} (e : event) (k : unit -> M B) :
  bind (emit e) k = (e :: fst (k tt), snd (k tt)).
Proof. unfold bind, emit. destruct (k tt) as [t r]. reflexivity. Qed.

Lemma bind_inl {A B} (m : M A) (k : A -> M B) t a :
  m = (t, inl a) -> bind m k = ((t ++ fst (k a))%list, snd (k a)).
Proof. intros ->. unfold bind. destruct (k a) as [t' r]. reflexivity. Qed.

Lemma bind_inr {A B} (m : M A) (k : A -> M B) t o :
  m = (t, inr o) -> bind m k = (t, inr o).
Proof. intros ->. reflexivity. Qed.

Lemma bind_assoc {A B C} (m : M A) (k : A -> M B) (h : B -> M C) :
  bind (bind m k) h = bind m (fun a => bind (k a) h).
Proof.
  destruct m as [t [a | o]]; [| reflexivity].
  unfold bind. destruct (k a) as [t1 [b | o]].
  - destruct (h b) as [t2 r]. rewrite app_assoc. reflexivity.
  - reflexivity.
Qed.

Lemma when_true m : when true m = m.
Proof. reflexivity. Qed.

Lemma when_false m : when false m = ret tt.
Proof. reflexivity. Qed.

(** ** Property access *)



(** Once one property of a value could be read, every read succeeds and
    agrees with optional access. *)
Lemma member_opt_member v k x k' :
  member v k = Some x -> member v k' = Some (opt_member v k').
Proof.
  unfold opt_member.
  destruct v; simpl; try discriminate; intros _; try reflexivity.
  destruct (lookup k' fields); reflexivity.
Qed.

Lemma get_opt_member v k x k' :
  member v k = Some x -> get v k' = ret (opt_member v k').
Proof.
  intros H. unfold get. rewrite (member_opt_member _ _ _ k' H). reflexivity.
Qed.


(** ** What a computation emits *)

Section Emits.
Variable P : event -> Prop.

Lemma Emits_ret {A} (a : A) : Emits P (ret a).
Proof. constructor. Qed.

Lemma Emits_exit {A} code : Emits P (@process_exit A code).
Proof. constructor. Qed.

Lemma Emits_throw {A} e : Emits P (@throw A e).
Proof. constructor. Qed.

Lemma Emits_emit e : P e -> Emits P (emit e).
Proof. intros H. constructor; [exact H | constructor]. Qed.

Lemma Emits_bind {A B} (m : M A) (k : A -> M B) :
  Emits P m -> (forall a, Emits P (k a)) -> Emits P (bind m k).
Proof.
  unfold Emits. destruct m as [t [a | o]]; simpl; intros Hm Hk; [| exact Hm].
  specialize (Hk a). destruct (k a) as [t' r]. simpl in *.
  apply Forall_app. split; assumption.
Qed.

Lemma Emits_get v k : Emits P (get v k).
Proof. unfold get. destruct (member v k); constructor. Qed.

Lemma Emits_await_json r : Emits P (await_json r).
Proof. destruct r as [| status [body |]]; constructor. Qed.

Lemma Emits_when b m : Emits P m -> Emits P (when b m).
Proof. destruct b; [trivial | constructor]. Qed.

End Emits.

(** Walks a script fragment statement by statement. *)
Ltac emits :=
  repeat first
    [ apply Emits_ret | apply Emits_exit | apply Emits_throw
    | apply Emits_get | apply Emits_await_json
    | apply Emits_emit; solve [reflexivity | exact I | split; reflexivity | auto]
    | apply Emits_when
    | apply Emits_bind; [| intros ?]
    | match goal with
      | |- Emits _ (if ?b then _ else _) => destruct b
      | |- Emits _ (match ?x with _ => _ end) => destruct x
      end ].

Lemma polls_app t1 t2 : polls (t1 ++ t2) = (polls t1 + polls t2)%nat.
Proof. unfold polls. rewrite filter_app, length_app. reflexivity. Qed.

Lemma posts_app t1 t2 : posts (t1 ++ t2) = (posts t1 + posts t2)%nat.
Proof. unfold posts. rewrite filter_app, length_app. reflexivity. Qed.

Lemma polls_none t : Forall not_poll t -> polls t = 0%nat.
Proof.
  unfold polls, not_poll. induction 1 as [| e t He _ IH]; [reflexivity |].
  simpl. rewrite He. exact IH.
Qed.

Lemma posts_none t : Forall not_post t -> posts t = 0%nat.
Proof.
  unfold posts, not_post. induction 1 as [| e t He _ IH]; [reflexivity |].
  simpl. rewrite He. exact IH.
Qed.

(** ** The reports *)


(** ** One loop iteration *)



Section Iteration.
Variables (w : world) (s : session) (i : nat).
Variables (code : Z) (status st : value).
Hypothesis Hresponse : poll_response w i = Response code (Some status).
Hypothesis Hstatus : member status "status" = Some st.





End Iteration.

(** ** The loop *)



Section Loop.
Variables (w : world) (s : session).



End Loop.

(** ** The polling session and the whole run *)


Lemma slow_notice_run model (rest : M unit) :
  (when (isSlowModel model)
     (emit (ConsoleLog ("ℹ️  Kling model detected — polling every "
                        ++ Z_to_string (pollIntervalMs model / 1000)
                        ++ "s, timeout " ++ timeoutLabel model ++ nl))) ;;
   rest)
  = ((slow_notice model ++ fst rest)%list, snd rest).
Proof.
  unfold slow_notice. destruct (isSlowModel model).
  - rewrite when_true, bind_emit. reflexivity.
  - rewrite when_false, bind_ret. destruct rest; reflexivity.
Qed.

Section Session.
Variables (w : world) (s : session).



End Session.

Lemma run_polling w t0 s :
  before_polling w = (t0, inl s) ->
  run w = ((t0 ++ fst (poll w s))%list,
           match snd (poll w s) with inl _ => Exited 0 | inr o => o end).
Proof.
  intros H. unfold run, main. rewrite (bind_inl _ _ _ _ H).
  destruct (snd (poll w s)); reflexivity.
Qed.

Lemma run_stopped_early w t0 o :
  before_polling w = (t0, inr o) -> run w = (t0, o).
Proof.
  intros H. unfold run, main. rewrite (bind_inr _ _ _ _ H). reflexivity.
Qed.

Lemma startup_quiet w : Emits (fun e => not_poll e /\ not_post e) (startup w).
Proof. unfold startup, check_args, setup_payment. emits. Qed.

Lemma announce_quiet w p : Emits (fun e => not_poll e /\ not_post e) (announce w p).
Proof. unfold announce. emits. Qed.

Lemma announce_returns w p : snd (announce w p) = inl tt.
Proof.
  unfold announce. rewrite !bind_emit.
  destruct (or_else (agentId w) None), (or_else (imageData w) None); reflexivity.
Qed.

Lemma before_polling_no_poll w : Emits not_poll (before_polling w).
Proof.
  unfold before_polling, startup, check_args, setup_payment, announce, submit.
  emits.
Qed.

Lemma slow_notice_quiet model :
  Forall (fun e => not_poll e /\ not_post e) (slow_notice model).
Proof.
  unfold slow_notice. destruct (isSlowModel model); repeat constructor.
Qed.

Lemma poll_no_post w s : Emits not_post (poll w s).
Proof.
  assert (Hloop : forall n i, Emits not_post (poll_loop w s n i)).
  { induction n as [| n IH]; intros i; cbn [poll_loop]; [apply Emits_ret |].
    apply Emits_bind; [| intros _; apply IH].
    unfold poll_once, report_completed. emits. }
  unfold poll. emits. apply Hloop.
Qed.

(** ** The submission step *)

Lemma has_task_id_member body :
  has_task_id body = true ->
  member body "taskId" = Some (opt_member body "taskId")
  /\ truthy (opt_member body "taskId") = true.
Proof.
  unfold opt_member. destruct body; try discriminate. simpl.
  destruct (lookup "taskId" fields); [auto | discriminate].
Qed.

Lemma no_task_id_member body x :
  has_task_id body = false ->
  member body "taskId" = Some x -> truthy x = false.
Proof.
  destruct body; simpl; try discriminate; try (intros _ [= <-]; reflexivity).
  destruct (lookup "taskId" fields); intros H [= <-]; [exact H | reflexivity].
Qed.

Section Submit.
Variables (w : world) (pay : payment) (p : string).
Variables (status : Z) (body : value).
Hypothesis Hresponse : create_response w = Response status (Some body).

Lemma submit_accepted :
  accepted status body ->
  submit w pay p =
  ((create_request w p :: queued_report (paymentNetwork pay) body)%list, inl body).
Proof.
  intros [-> Hid]. destruct (has_task_id_member _ Hid) as [Hm Ht].
  unfold submit, check_response. rewrite Hresponse. cbn [await_json].
  rewrite bind_emit, bind_ret. cbn [fst snd Z.eqb Pos.eqb negb].
  rewrite !(get_opt_member _ _ _ _ Hm), !bind_ret, Ht. cbn [negb].
  rewrite when_false, bind_ret, bind_emit.
  unfold queued_report, payment_line, create_request.
  destruct (truthy (opt_member body "txHash")); reflexivity.
Qed.

Lemma submit_wrong_status :
  status <> 202 ->
  submit w pay p = ([create_request w p; generation_failed body], inr (Exited 1)).
Proof.
  intros H. unfold submit, check_response. rewrite Hresponse. cbn [await_json].
  rewrite bind_emit, bind_ret. cbn [fst snd].
  rewrite (proj2 (Z.eqb_neq _ _) H). reflexivity.
Qed.

Lemma submit_no_task_id :
  has_task_id body = false ->
  exists t o, submit w pay p = (create_request w p :: t, inr o) /\ exit_code o = 1.
Proof.
  intros Hid. destruct (Z.eq_dec status 202) as [E | E].
  2:{ rewrite (submit_wrong_status E). eauto. }
  unfold submit, check_response. rewrite Hresponse. cbn [await_json].
  rewrite bind_emit, bind_ret, E. cbn [fst snd Z.eqb Pos.eqb negb].
  unfold get. destruct (member body "taskId") as [x |] eqn:Hm.
  - rewrite !bind_ret, (no_task_id_member _ _ Hid Hm). cbn [negb].
    rewrite when_true. eexists _, _. split; reflexivity.
  - eexists _, _. split; reflexivity.
Qed.

End Submit.

Lemma trace_main w : trace w = fst (main w).
Proof. unfold trace, run. destruct (main w) as [t [u | o]]; reflexivity. Qed.

Section BeforePolling.
Variables (w : world) (t0 : list event) (p : string) (pay : payment).
Hypothesis Hstartup : startup w = (t0, inl (p, pay)).

Lemma before_polling_started :
  before_polling w =
  let rest := (body <- submit w pay p ;;
               taskId <- get body "taskId" ;;
               ret {| network := paymentNetwork pay; taskId := taskId;
                      session_model := model w |}) in
  ((t0 ++ fst (announce w p) ++ fst rest)%list, snd rest).
Proof.
  unfold before_polling. rewrite (bind_inl _ _ _ _ Hstartup). cbv zeta.
  pose proof (announce_returns w p) as Ha.
  destruct (announce w p) as [ta r]. cbn [snd] in Ha. subst r.
  rewrite (bind_inl _ _ _ _ eq_refl). reflexivity.
Qed.

Lemma before_polling_accepted status body :
  create_response w = Response status (Some body) ->
  accepted status body ->
  before_polling w =
  ((t0 ++ fst (announce w p)
    ++ create_request w p :: queued_report (paymentNetwork pay) body)%list,
   inl {| network := paymentNetwork pay; taskId := opt_member body "taskId";
          session_model := model w |}).
Proof.
  intros Hr Ha. rewrite before_polling_started. cbv zeta.
  rewrite (bind_inl _ _ _ _ (submit_accepted w pay p status body Hr Ha)).
  destruct Ha as [_ Hid]. destruct (has_task_id_member _ Hid) as [Hm _].
  rewrite (get_opt_member _ _ _ _ Hm), bind_ret. cbn [fst snd ret].
  rewrite app_nil_r. reflexivity.
Qed.

Lemma before_polling_rejected status body :
  create_response w = Response status (Some body) ->
  ~ accepted status body ->
  exists t o, before_polling w = (t, inr o) /\ exit_code o = 1.
Proof.
  intros Hr Hn. rewrite before_polling_started. cbv zeta.
  destruct (Z.eq_dec status 202) as [E | E].
  - destruct (has_task_id body) eqn:Hid; [exfalso; apply Hn; split; assumption |].
    destruct (submit_no_task_id w pay p status body Hr Hid) as (t & o & Hs & Ho).
    rewrite (bind_inr _ _ _ _ Hs). eexists _, _. split; [reflexivity | exact Ho].
  - rewrite (bind_inr _ _ _ _ (submit_wrong_status w pay p status body Hr E)).
    eexists _, _. split; reflexivity.
Qed.

(** Whatever comes back, one creation request has gone out. *)
Lemma before_polling_one_post : posts (fst (before_polling w)) = 1%nat.
Proof.
  rewrite before_polling_started. cbv zeta. cbn [fst].
  pose proof (startup_quiet w) as Hs. unfold Emits in Hs.
  rewrite Hstartup in Hs. cbn [fst] in Hs.
  rewrite !posts_app, (posts_none t0), (posts_none (fst (announce w p))).
  2:{ eapply Forall_impl; [| apply announce_quiet]. intros e [_ H]; exact H. }
  2:{ eapply Forall_impl; [| exact Hs]. intros e [_ H]; exact H. }
  unfold submit. rewrite !bind_assoc, bind_emit. cbn [fst].
  change (posts (?e :: ?t)) with (S (posts t)).
  rewrite posts_none; [reflexivity |].
  match goal with |- Forall _ (fst ?m) => change (Emits not_post m) end.
  unfold check_response. emits.
Qed.

End BeforePolling.

Lemma posts_trace_started w t0 p pay :
  startup w = (t0, inl (p, pay)) -> posts (trace w) = 1%nat.
Proof.
  intros H. pose proof (before_polling_one_post w t0 p pay H) as Hone.
  rewrite trace_main. unfold main.
  destruct (before_polling w) as [t [s | o]]; cbn [fst] in Hone.
  - rewrite (bind_inl _ _ _ _ eq_refl). cbn [fst].
    rewrite posts_app, Hone, (posts_none _ (poll_no_post w s)). reflexivity.
  - exact Hone.
Qed.




(** ** How a run ends *)


Section Ending.
Variables (w : world) (t0 : list event) (s : session).
Hypothesis Hsession : before_polling w = (t0, inl s).





End Ending.














(** ** Strings *)

Lemma prefix_app p s : prefix p s = true <-> exists post, s = p ++ post.
Proof.
  revert s. induction p as [| c p IH]; intros s.
  - split; [intros _; exists s; reflexivity | intros _; destruct s; reflexivity].
  - destruct s as [| c' s]; cbn [prefix].
    + split; [discriminate | intros [post H]; discriminate H].
    + destruct (Ascii.ascii_dec c c') as [-> | Hne].
      * rewrite IH. split; intros [post H]; exists post;
          [rewrite H; reflexivity | injection H as H; exact H].
      * split; [discriminate | intros [post H]; cbn in H; congruence].
Qed.

Lemma includes_app needle hay :
  includes needle hay = true <-> exists pre post, hay = pre ++ needle ++ post.
Proof.
  induction hay as [| c hay IH].
  - cbn [includes]. rewrite prefix_app. split.
    + intros [post H]. exists "", post. exact H.
    + intros (pre & post & H). destruct pre; [exists post; exact H | discriminate H].
  - cbn [includes]. rewrite orb_true_iff, prefix_app, IH. split.
    + intros [[post H] | (pre & post & H)].
      * exists "", post. exact H.
      * exists (String c pre), post. rewrite H. reflexivity.
    + intros (pre & post & H). destruct pre as [| c' pre].
      * left. exists post. exact H.
      * right. injection H as _ H. exists pre, post. exact H.
Qed.

Lemma append_assoc (a b c : string) : (a ++ b) ++ c = a ++ b ++ c.
Proof. induction a as [| x a IH]; [reflexivity | cbn; rewrite IH; reflexivity]. Qed.

(** ** The polling policy *)

Lemma isSlowModel_kling model :
  isSlowModel model = true <-> exists pre post, model = pre ++ "kling" ++ post.
Proof.
  unfold isSlowModel, SLOW_MODELS, startsWith. cbn [existsb].
  rewrite orb_false_r, orb_true_iff, prefix_app, includes_app. split.
  - intros [[post H] | H]; [| exact H].
    exists "fal-", ("-o3" ++ post). rewrite H. reflexivity.
  - intros H. right. exact H.
Qed.

Lemma matches_slow_set_kling model :
  matches_slow_set model = true <-> exists pre post, model = pre ++ "kling" ++ post.
Proof.
  unfold matches_slow_set, slow_tokens, SLOW_MODELS, startsWith. cbn [existsb app].
  rewrite orb_false_r, !orb_true_iff, !prefix_app, !includes_app. split.
  - intros [[[post H] | (pre & post & H)] | [[post H] | H]]; [| | | exact H].
    + exists "fal-", ("-o3" ++ post). rewrite H. reflexivity.
    + exists (pre ++ "fal-"), ("-o3" ++ post). rewrite H, append_assoc. reflexivity.
    + exists "", post. exact H.
  - intros H. right. right. exact H.
Qed.

Lemma bind_returns {A B} (m : M A) (k : A -> M B) t b :
  bind m k = (t, inl b) ->
  exists t1 a t2, m = (t1, inl a) /\ k a = (t2, inl b) /\ t = (t1 ++ t2)%list.
Proof.
  destruct m as [t1 [a | o]]; [| discriminate]. unfold bind.
  destruct (k a) as [t2 r] eqn:Hk. intros [= <- ->]. eauto 6.
Qed.

Lemma before_polling_model w t s :
  before_polling w = (t, inl s) -> session_model s = model w.
Proof.
  unfold before_polling. intros H.
  apply bind_returns in H as (t1 & [p pay] & t2 & _ & H & _).
  apply bind_returns in H as (t3 & [] & t4 & _ & H & _).
  apply bind_returns in H as (t5 & body & t6 & _ & H & _).
  apply bind_returns in H as (t7 & id & t8 & _ & H & _).
  injection H as _ <-. reflexivity.
Qed.

Lemma before_polling_no_timer w : Emits no_timer (before_polling w).
Proof.
  unfold before_polling, startup, check_args, setup_payment, announce, submit,
    check_response.
  emits.
Qed.

Lemma poll_once_one_request w s i : (polls (fst (poll_once w s i)) <= 1)%nat.
Proof.
  unfold poll_once. rewrite !bind_emit. cbn [fst].
  change (polls (?a :: Fetch ?u :: ?t)) with (S (polls t)).
  rewrite polls_none; [lia |].
  match goal with |- Forall _ (fst ?m) => change (Emits not_poll m) end.
  unfold report_completed. emits.
Qed.

Lemma poll_loop_within_budget w s n : forall i,
  (polls (fst (poll_loop w s n i)) <= n)%nat.
Proof.
  induction n as [| n IH]; intros i; cbn [poll_loop]; [apply Nat.le_refl |].
  pose proof (poll_once_one_request w s i) as H1. specialize (IH (S i)).
  destruct (poll_once w s i) as [t [[] | o]]; cbn [fst] in H1.
  - rewrite (bind_inl _ _ _ _ eq_refl). cbn [fst]. rewrite polls_app. lia.
  - rewrite (bind_inr _ _ _ _ eq_refl). cbn [fst]. lia.
Qed.

Lemma poll_waits_for w s : Emits (waits_for (pollIntervalMs (session_model s))) (poll w s).
Proof.
  assert (Hloop : forall n i,
             Emits (waits_for (pollIntervalMs (session_model s))) (poll_loop w s n i)).
  { induction n as [| n IH]; intros i; cbn [poll_loop]; [apply Emits_ret |].
    apply Emits_bind; [| intros _; apply IH].
    unfold poll_once, report_completed. emits. }
  unfold poll. emits. apply Hloop.
Qed.

Lemma isSlowModel_matches m : isSlowModel m = matches_slow_set m.
Proof.
  pose proof (isSlowModel_kling m) as H1.
  pose proof (matches_slow_set_kling m) as H2.
  destruct (isSlowModel m), (matches_slow_set m); try reflexivity.
  - symmetry. apply H2, H1. reflexivity.
  - apply H1, H2. reflexivity.
Qed.

Lemma no_timer_waits ms t : Forall no_timer t -> Forall (waits_for ms) t.
Proof.
  apply Forall_impl. intros [] H; try exact I. destruct H.
Qed.

(** C5. The policy is a function of the model identifier alone. A model
    that matches the slow set (some slow token is a prefix of it or occurs
    in it; with the tokens the script has, this is: the identifier contains
    "kling") polls every 10,000 ms, at most 120 times, under the label
    "20 minutes"; every other model polls every 5,000 ms, at most 120 times,
    under the label "10 minutes". No timer runs before the session starts,
    the session is started with the model of the command line, and every
    timer of the run waits for that one interval, for at most that many
    polls. *)
Theorem polling_policy_by_model m :
  isSlowModel m = matches_slow_set m
  /\ (matches_slow_set m = true <-> exists pre post, m = pre ++ "kling" ++ post)
  /\ (matches_slow_set m = true -> policy_of m = slow_policy)
  /\ (matches_slow_set m = false -> policy_of m = fast_policy)
  /\ (forall w s,
        session_model s = m ->
        Forall (waits_for (intervalMilliseconds (policy_of m))) (fst (poll w s))
        /\ (polls (fst (poll w s)) <= Z.to_nat (maxAttempts (policy_of m)))%nat)
  /\ (forall w t s,
        before_polling w = (t, inl s) -> model w = m ->
        session_model s = m
        /\ Forall no_timer t
        /\ Forall (waits_for (intervalMilliseconds (policy_of m))) (trace w)
        /\ (polls (trace w) <= Z.to_nat (maxAttempts (policy_of m)))%nat).
Proof.
  assert (Hsession : forall w s,
             session_model s = m ->
             Forall (waits_for (intervalMilliseconds (policy_of m))) (fst (poll w s))
             /\ (polls (fst (poll w s)) <= Z.to_nat (maxAttempts (policy_of m)))%nat).
  { intros w s <-. split; [apply poll_waits_for |].
    cbn [policy_of maxAttempts]. unfold poll.
    rewrite slow_notice_run. cbn [fst]. rewrite polls_app, polls_none.
    2:{ eapply Forall_impl; [| apply slow_notice_quiet]. intros e [H _]; exact H. }
    pose proof (poll_loop_within_budget w s (Z.to_nat (maxPolls (session_model s))) 0) as Hb.
    destruct (poll_loop w s (Z.to_nat (maxPolls (session_model s))) 0) as [tl [[] | o]];
      cbn [fst] in Hb.
    - rewrite (bind_inl _ _ _ _ eq_refl). cbn [fst]. rewrite polls_app.
      match goal with
      | |- context [polls (fst ?m)] => change (polls (fst m)) with 0%nat
      end.
      lia.
    - rewrite (bind_inr _ _ _ _ eq_refl). cbn [fst]. lia. }
  split; [apply isSlowModel_matches |].
  split; [apply matches_slow_set_kling |].
  split; [| split; [| split; [exact Hsession |]]].
  - rewrite <- isSlowModel_matches. intros H.
    unfold policy_of, pollIntervalMs, maxPolls, timeoutLabel. rewrite H. reflexivity.
  - rewrite <- isSlowModel_matches. intros H.
    unfold policy_of, pollIntervalMs, maxPolls, timeoutLabel. rewrite H. reflexivity.
  - intros w t s Hb Hm.
    pose proof (before_polling_model _ _ _ Hb) as Hs. rewrite Hm in Hs.
    pose proof (before_polling_no_timer w) as Hq. unfold Emits in Hq.
    rewrite Hb in Hq. cbn [fst] in Hq.
    destruct (Hsession w s Hs) as [Hw Hp].
    split; [exact Hs |]. split; [exact Hq |].
    unfold trace. rewrite (run_polling _ _ _ Hb). cbn [fst]. split.
    + apply Forall_app. split; [apply no_timer_waits; exact Hq | exact Hw].
    + pose proof (before_polling_no_poll w) as Hn. unfold Emits in Hn.
      rewrite Hb in Hn. cbn [fst] in Hn.
      rewrite polls_app, (polls_none _ Hn). exact Hp.
Qed.

Lemma polling_policy_by_model_witness :
  policy_of "fal-kling-o3" = slow_policy
  /\ policy_of "kling-v2-master" = slow_policy
  /\ policy_of "sora-2-pro" = fast_policy
  /\ Forall (waits_for 5000) (trace scenario_world).
Proof.
  split; [| split; [| split]].
  - exact (proj1 (proj2 (proj2 (polling_policy_by_model "fal-kling-o3"))) eq_refl).
  - exact (proj1 (proj2 (proj2 (polling_policy_by_model "kling-v2-master"))) eq_refl).
  - exact (proj1 (proj2 (proj2 (proj2 (polling_policy_by_model "sora-2-pro")))) eq_refl).
  - exact (proj1 (proj2 (proj2
             (proj2 (proj2 (proj2 (proj2 (proj2 (polling_policy_by_model "xai-grok-imagine")))))
                scenario_world _ _ eq_refl eq_refl)))).
Defined.

(** ** The explorer link *)

Lemma base58_char_alphabet c :
  base58_char c = existsb (Ascii.eqb c) (list_ascii_of_string base58_alphabet).
Proof.
  destruct c as [b0 b1 b2 b3 b4 b5 b6 b7].
  destruct b0, b1, b2, b3, b4, b5, b6, b7; reflexivity.
Qed.

Lemma base58_char_In c :
  base58_char c = true <-> In c (list_ascii_of_string base58_alphabet).
Proof.
  rewrite base58_char_alphabet, existsb_exists. split.
  - intros (x & Hin & Heq). apply Ascii.eqb_eq in Heq. subst x. exact Hin.
  - intros Hin. exists c. split; [exact Hin | apply Ascii.eqb_refl].
Qed.

Lemma base58_80_90_pattern tx : base58_80_90 tx = true <-> signature_pattern tx.
Proof.
  unfold base58_80_90, signature_pattern.
  rewrite !andb_true_iff, forallb_forall, Forall_forall, !Nat.leb_le.
  split; intros [Hlen Hall]; (split; [exact Hlen |]);
    intros c Hc; apply base58_char_In, Hall, Hc.
Qed.

Lemma startup_network w t p pay :
  startup w = (t, inl (p, pay)) ->
  paymentNetwork pay = "solana" \/ paymentNetwork pay = "base".
Proof.
  unfold startup, check_args, setup_payment.
  destruct (or_else (prompt w) None);
    destruct (defined (evmKey w)), (defined (solanaKey w)),
             (dexter_loads w), (x402_loads w), (x402_legacy_loads w);
    cbn; intros [= _ _ <-] || discriminate; auto.
Qed.

(** C6. The derived explorer link depends on the network label and on the
    transaction reference only. On the Solana network every reference gets
    the Solscan link. On any other network (after a successful start-up the
    only other one is Base) a reference that is not 80 to 90 base-58
    characters gets the Basescan link, and one that is gets the Solscan
    link all the same. This derived link is what the payment line shows
    when the payload brings a reference and no explorer of its own. *)
Theorem explorer_derivation (net tx : string) :
  (net = "solana" ->
   derived_explorer net (VStr tx) = "https://solscan.io/tx/" ++ tx)
  /\ (net <> "solana" -> ~ signature_pattern tx ->
      derived_explorer net (VStr tx) = "https://basescan.org/tx/" ++ tx)
  /\ (net <> "solana" -> signature_pattern tx ->
      derived_explorer net (VStr tx) = "https://solscan.io/tx/" ++ tx)
  /\ (forall w t p pay,
        startup w = (t, inl (p, pay)) -> paymentNetwork pay = net ->
        net = "solana" \/ net = "base")
  /\ (forall label payload,
        opt_member payload "txHash" = VStr tx -> tx <> "" ->
        truthy (opt_member payload "explorer") = false ->
        payment_line label net payload =
        [ConsoleLog (label ++ derived_explorer net (VStr tx))]).
Proof.
  unfold derived_explorer. cbn [to_string].
  split; [| split; [| split; [| split]]].
  - intros ->. reflexivity.
  - intros Hn Hp. rewrite (proj2 (String.eqb_neq _ _) Hn).
    destruct (base58_80_90 tx) eqn:E; [| reflexivity].
    exfalso. apply Hp, base58_80_90_pattern, E.
  - intros Hn Hp. rewrite (proj2 (base58_80_90_pattern tx) Hp), orb_true_r.
    reflexivity.
  - intros w t p pay Hs <-. apply (startup_network _ _ _ _ Hs).
  - intros label payload Htx Hne Hex. unfold payment_line, explorer_link, JS.or.
    rewrite Htx, Hex. cbn [truthy to_string].
    rewrite (proj2 (String.eqb_neq _ _) Hne). reflexivity.
Qed.

Lemma explorer_derivation_witness :
  derived_explorer "solana" (VStr "0xabc") = "https://solscan.io/tx/0xabc"
  /\ derived_explorer "base" (VStr "0xabc") = "https://basescan.org/tx/0xabc"
  /\ derived_explorer "base" (VStr sample_signature)
     = "https://solscan.io/tx/" ++ sample_signature.
Proof.
  assert (Hsig : signature_pattern sample_signature).
  { apply base58_80_90_pattern. reflexivity. }
  assert (Hnot : ~ signature_pattern "0xabc").
  { intros [[Hlen _] _]. cbn in Hlen. lia. }
  split; [| split].
  - exact (proj1 (explorer_derivation "solana" "0xabc") eq_refl).
  - refine (proj1 (proj2 (explorer_derivation "base" "0xabc")) _ Hnot). discriminate.
  - refine (proj1 (proj2 (proj2 (explorer_derivation "base" sample_signature))) _ Hsig).
    discriminate.
Defined.

(** ** The request body *)

Lemma or_else_not_empty a b : or_else a (or_else b None) <> Some "".
Proof.
  destruct a as [s |]; cbn [or_else].
  - destruct (String.eqb_spec s "") as [-> | Hs]; [| congruence].
    destruct b as [s' |]; cbn [or_else]; [| discriminate].
    destruct (String.eqb_spec s' ""); congruence.
  - destruct b as [s' |]; cbn [or_else]; [| discriminate].
    destruct (String.eqb_spec s' ""); congruence.
Qed.

Lemma agentId_not_empty w : agentId w <> Some "".
Proof. apply or_else_not_empty. Qed.

Lemma imageData_not_empty w : imageData w <> Some "".
Proof. apply (or_else_not_empty (process_argv w 7) None). Qed.

Lemma spread_if_present name x :
  x <> Some "" ->
  spread_if name x = match x with Some s => [(name, VStr s)] | None => [] end.
Proof.
  unfold spread_if. destruct x as [s |]; cbn [or_else]; [| reflexivity].
  destruct (String.eqb_spec s ""); congruence.
Qed.



(** ** The explorer link of the server *)




(** * More properties of the script *)

(** ** Start-up *)

Lemma fst_bind {A B} (m : M A) (k : A -> M B) :
  fst (bind m k) =
  (fst m ++ match snd m with inl a => fst (k a) | inr _ => [] end)%list.
Proof.
  destruct m as [t [a | o]]; unfold bind; cbn [fst snd].
  - destruct (k a); reflexivity.
  - rewrite app_nil_r. reflexivity.
Qed.

Lemma startup_fails w :
  or_else (prompt w) None = None \/ selected_network w = None ->
  exists t, startup w = (t, inr (Exited 1)) /\ t <> [] /\ Forall is_stderr t.
Proof.
  unfold startup, check_args, setup_payment, selected_network.
  destruct (or_else (prompt w) None);
    destruct (defined (evmKey w)), (defined (solanaKey w)),
             (dexter_loads w), (x402_loads w), (x402_legacy_loads w);
    cbn; intros [H | H]; try discriminate H;
    (eexists; split; [reflexivity | split; [discriminate | repeat constructor]]).
Qed.

Lemma startup_succeeds w p net :
  or_else (prompt w) None = Some p ->
  selected_network w = Some net ->
  exists t,
    startup w = (t, inl (p, {| fetchWithPayment := true; paymentNetwork := net |}))
    /\ Forall is_console t
    /\ (In (ConsoleWarn "⚠️  @dexterai/x402 not available, falling back to EVM") t
        <-> defined (solanaKey w) = true /\ dexter_loads w = false).
Proof.
  unfold startup, check_args, setup_payment, selected_network.
  intros ->.
  destruct (defined (evmKey w)), (defined (solanaKey w)),
           (dexter_loads w), (x402_loads w), (x402_legacy_loads w);
    cbn; intros [= <-];
    (eexists; split; [reflexivity | split; [repeat constructor |]]);
    cbn; split; intros H; try (destruct H as [H | H]); try discriminate;
    try contradiction; try (destruct H; discriminate); auto.
Qed.

(** X1. Without a prompt, or when no payment client can be set up (no key
    at all, or none of the clients a key calls for loads), the run ends with
    exit code 1 having written to standard error only: no request goes out
    and no timer is set. The prompt is checked first: without it the run is
    the three usage lines, whatever the keys. *)
Theorem startup_failure_exits_early w :
  or_else (prompt w) None = None \/ selected_network w = None ->
  (exists t, run w = (t, Exited 1) /\ t <> [] /\ Forall is_stderr t)
  /\ posts (trace w) = 0%nat /\ polls (trace w) = 0%nat
  /\ (or_else (prompt w) None = None ->
      trace w =
      [ConsoleError ("Usage: [EVM_PRIVATE_KEY=0x... | SOLANA_PRIVATE_KEY=...] node scripts/x402-generate.mjs " ++ dq ++ "prompt" ++ dq ++ " [model] [duration] [agentId] [aspectRatio] [imageData]");
       ConsoleError "Models: xai-grok-imagine (default), sora-2, sora-2-pro, fal-kling-o3";
       ConsoleError (nl ++ "Set EVM_PRIVATE_KEY for Base USDC or SOLANA_PRIVATE_KEY for Solana USDC.")]).
Proof.
  intros H. destruct (startup_fails w H) as (t & Hs & Hne & Hall).
  assert (Hrun : run w = (t, Exited 1)).
  { apply run_stopped_early. unfold before_polling.
    rewrite (bind_inr _ _ _ _ Hs). reflexivity. }
  split; [exists t; auto |].
  unfold trace. rewrite Hrun. cbn [fst].
  split; [| split].
  - apply posts_none. eapply Forall_impl; [| exact Hall].
    intros [] He; try reflexivity; destruct He.
  - apply polls_none. eapply Forall_impl; [| exact Hall].
    intros [] He; try reflexivity; destruct He.
  - intros Hp. unfold startup, check_args in Hs. rewrite Hp in Hs.
    cbn in Hs. injection Hs as <-. reflexivity.
Qed.

Lemma startup_failure_exits_early_witness :
  (exists t,
     run (world_of ["A cat surfing"] None None (Some "4vJ9") false true true
            (queued_as "task-1") (fun _ => running 10)) = (t, Exited 1)
     /\ t <> [] /\ Forall is_stderr t)
  /\ posts (trace (world_of ["A cat surfing"] None None (Some "4vJ9") false true true
                    (queued_as "task-1") (fun _ => running 10))) = 0%nat.
Proof.
  destruct (startup_failure_exits_early
              (world_of ["A cat surfing"] None None (Some "4vJ9") false true true
                 (queued_as "task-1") (fun _ => running 10))
              (or_intror eq_refl)) as (Hrun & Hposts & _).
  split; [exact Hrun | exact Hposts].
Defined.

(** X2. With a prompt and a usable client the start-up succeeds, printing to
    the console only, and the run sends exactly one creation POST. The
    network is Solana exactly when the Solana key is set and the Dexter
    client loads, also when an EVM key is set as well; otherwise it is
    Base. The fall-back warning is printed exactly when a Solana key was
    set and Dexter did not load. *)
Theorem payment_network_selection w p net :
  or_else (prompt w) None = Some p ->
  selected_network w = Some net ->
  (exists t,
     startup w = (t, inl (p, {| fetchWithPayment := true; paymentNetwork := net |}))
     /\ Forall is_console t
     /\ (In (ConsoleWarn "⚠️  @dexterai/x402 not available, falling back to EVM") t
         <-> defined (solanaKey w) = true /\ dexter_loads w = false))
  /\ (net = "solana" <-> defined (solanaKey w) = true /\ dexter_loads w = true)
  /\ (net = "base" <-> ~ (defined (solanaKey w) = true /\ dexter_loads w = true))
  /\ posts (trace w) = 1%nat.
Proof.
  intros Hp Hn. destruct (startup_succeeds w p net Hp Hn) as (t & Hs & Hc & Hw).
  assert (Hnet : net = if defined (solanaKey w) && dexter_loads w
                       then "solana" else "base").
  { unfold selected_network in Hn.
    destruct (defined (solanaKey w) && dexter_loads w); [congruence |].
    destruct (defined (evmKey w) && (x402_loads w || x402_legacy_loads w));
      congruence. }
  split; [exists t; auto |].
  split; [| split; [| apply (posts_trace_started _ _ _ _ Hs)]].
  - rewrite Hnet. destruct (defined (solanaKey w)), (dexter_loads w); cbn;
      intuition discriminate.
  - rewrite Hnet. destruct (defined (solanaKey w)), (dexter_loads w); cbn;
      intuition discriminate.
Qed.

Lemma payment_network_selection_witness :
  exists t,
    startup (world_of ["A cat surfing"] None (Some "0x0123") (Some "4vJ9")
               true true true (queued_as "task-1") (fun _ => running 10))
    = (t, inl ("A cat surfing",
               {| fetchWithPayment := true; paymentNetwork := "solana" |}))
    /\ Forall is_console t.
Proof.
  destruct (payment_network_selection
              (world_of ["A cat surfing"] None (Some "0x0123") (Some "4vJ9")
                 true true true (queued_as "task-1") (fun _ => running 10))
              "A cat surfing" "solana" eq_refl eq_refl)
    as ((t & Hs & Hc & _) & _).
  exists t. split; [exact Hs | exact Hc].
Defined.

(** ** Arguments and the log *)

Lemma empty_arguments_missing w k :
  Forall (fun a => a = "") (tl (argv w)) -> (3 <= k)%nat ->
  or_else (process_argv w k) None = None.
Proof.
  intros Hall Hk. unfold process_argv.
  destruct (k - 2)%nat as [| j] eqn:Hj; [lia |].
  destruct (argv w) as [| a0 rest]; [reflexivity |]. cbn [tl nth_error] in *.
  destruct (nth_error rest j) as [a |] eqn:Hn; [| reflexivity].
  apply nth_error_In in Hn. rewrite Forall_forall in Hall.
  rewrite (Hall a Hn). reflexivity.
Qed.

(** X3. Given nothing but a prompt (further arguments missing or empty),
    the request asks for model xai-grok-imagine, 8 seconds and ratio 9:16,
    with the agent of CLAWDVINE_AGENT_ID when that is set and no agentId
    member otherwise, and no imageData. An agent given on the command line
    overrides the one of the environment. *)
Theorem default_request w p :
  Forall (fun a => a = "") (tl (argv w)) ->
  request_body w p =
  VObj ([("prompt", VStr p); ("videoModel", VStr "xai-grok-imagine");
         ("duration", VNum (Int 8)); ("aspectRatio", VStr "9:16")]
        ++ match env_CLAWDVINE_AGENT_ID w with
           | Some a => if (a =? "")%string then [] else [("agentId", VStr a)]
           | None => []
           end)
  /\ isSlowModel (model w) = false
  /\ (forall w' a,
        nth_error (argv w') 3 = Some a -> a <> "" ->
        agentId w' = Some a
        /\ exists before after,
             request_body w' p = VObj (before ++ ("agentId", VStr a) :: after)%list).
Proof.
  intros Hall.
  assert (H3 := empty_arguments_missing w 3 Hall ltac:(lia)).
  assert (H4 := empty_arguments_missing w 4 Hall ltac:(lia)).
  assert (H5 := empty_arguments_missing w 5 Hall ltac:(lia)).
  assert (H6 := empty_arguments_missing w 6 Hall ltac:(lia)).
  assert (H7 := empty_arguments_missing w 7 Hall ltac:(lia)).
  assert (Hm : model w = "xai-grok-imagine").
  { unfold model, or_default. rewrite H3. reflexivity. }
  split; [| split].
  - unfold request_body, spread_if, duration, aspectRatio, agentId, imageData,
      or_default.
    rewrite Hm, H4, H6, H7.
    assert (Ha : or_else (process_argv w 5) (or_else (env_CLAWDVINE_AGENT_ID w) None)
                 = or_else (env_CLAWDVINE_AGENT_ID w) None).
    { destruct (process_argv w 5) as [a |]; cbn [or_else] in *; [| reflexivity].
      destruct (a =? "")%string; [reflexivity | discriminate]. }
    rewrite Ha.
    destruct (env_CLAWDVINE_AGENT_ID w) as [a |]; cbn [or_else];
      [destruct (a =? "")%string eqn:E; cbn [or_else]; rewrite ?E |];
      rewrite app_nil_r; reflexivity.
  - rewrite Hm. reflexivity.
  - intros w' a Ha Hne.
    assert (Hagent : agentId w' = Some a).
    { unfold agentId, process_argv. cbn [Nat.sub]. rewrite Ha. cbn [or_else].
      rewrite (proj2 (String.eqb_neq _ _) Hne). reflexivity. }
    split; [exact Hagent |].
    unfold request_body. rewrite Hagent.
    unfold spread_if at 1. cbn [or_else].
    rewrite (proj2 (String.eqb_neq _ _) Hne).
    eexists _, _. reflexivity.
Qed.

Lemma default_request_witness :
  JSON_stringify
    (request_body (world_of ["A cat surfing"; ""; ""] (Some "1:22831") (Some "0x0123") None
                     false true false (queued_as "task-1") (fun _ => running 10))
       "A cat surfing")
  = "{" ++ join "," [quote "prompt" ++ ":" ++ quote "A cat surfing";
                     quote "videoModel" ++ ":" ++ quote "xai-grok-imagine";
                     quote "duration" ++ ":" ++ "8";
                     quote "aspectRatio" ++ ":" ++ quote "9:16";
                     quote "agentId" ++ ":" ++ quote "1:22831"] ++ "}".
Proof.
  rewrite (proj1 (default_request
                    (world_of ["A cat surfing"; ""; ""] (Some "1:22831") (Some "0x0123") None
                       false true false (queued_as "task-1") (fun _ => running 10))
                    "A cat surfing"
                    ltac:(repeat constructor))).
  reflexivity.
Defined.

Lemma or_else_id x : x <> Some "" -> or_else x None = x.
Proof.
  destruct x as [s |]; cbn [or_else]; [| reflexivity].
  destruct (String.eqb_spec s ""); congruence.
Qed.

(** The opening lines of the log, lines 111-117. *)
Lemma announce_trace w p :
  announce w p =
  (([ConsoleLog (nl ++ "🎬 Generating video...");
     prompt_preview p;
     ConsoleLog ("   Model:    " ++ model w);
     ConsoleLog ("   Duration: " ++ number_to_string (duration w) ++ "s")]
    ++ match agentId w with
       | Some a => [ConsoleLog ("   Agent:    " ++ a)]
       | None => []
       end
    ++ match imageData w with
       | Some img =>
           [ConsoleLog ("   Image:    " ++
                        (if startsWith "data:" img then "[base64]"
                         else slice0 60 img ++ "..."))]
       | None => []
       end
    ++ [ConsoleLog ""])%list,
   inl tt).
Proof.
  unfold announce, prompt_preview.
  rewrite (or_else_id _ (agentId_not_empty w)), (or_else_id _ (imageData_not_empty w)).
  destruct (agentId w), (imageData w); reflexivity.
Qed.

(** Once the client is up, the log opens and the creation request goes
    out, whatever follows. *)
Lemma trace_started w t0 p pay :
  startup w = (t0, inl (p, pay)) ->
  exists after,
    trace w = (t0 ++ fst (announce w p) ++ create_request w p :: after)%list.
Proof.
  intros Hs. rewrite trace_main. unfold main.
  rewrite fst_bind, (before_polling_started w t0 p pay Hs). cbv zeta. cbn [fst snd].
  unfold submit at 1. rewrite bind_assoc, bind_emit. cbn [fst].
  rewrite <- !app_assoc. cbn [app]. eexists. reflexivity.
Qed.

Lemma request_body_optional w p :
  request_body w p =
  VObj ([("prompt", VStr p); ("videoModel", VStr (model w));
         ("duration", VNum (duration w)); ("aspectRatio", VStr (aspectRatio w))]
        ++ match agentId w with Some a => [("agentId", VStr a)] | None => [] end
        ++ match imageData w with Some img => [("imageData", VStr img)] | None => [] end).
Proof.
  unfold request_body.
  rewrite (spread_if_present _ _ (agentId_not_empty w)),
          (spread_if_present _ _ (imageData_not_empty w)).
  reflexivity.
Qed.

(** X4. The duration argument is not validated. When it does not start
    with a number ([parseInt] gives NaN) the script goes on all the same:
    the log says "Duration: NaNs" and the one creation POST carries
    "duration":null. *)
Theorem unparsable_duration_sent_as_null w t0 p pay :
  startup w = (t0, inl (p, pay)) ->
  duration w = NaN ->
  posts (trace w) = 1%nat
  /\ In (ConsoleLog "   Duration: NaNs") (trace w)
  /\ In (FetchWithPayment "https://api.clawdvine.sh/generation/create" "POST"
           [("Content-Type", "application/json")]
           ("{" ++ join ","
                     ([quote "prompt" ++ ":" ++ quote p;
                       quote "videoModel" ++ ":" ++ quote (model w);
                       quote "duration" ++ ":" ++ "null";
                       quote "aspectRatio" ++ ":" ++ quote (aspectRatio w)]
                      ++ match agentId w with
                         | Some a => [quote "agentId" ++ ":" ++ quote a]
                         | None => []
                         end
                      ++ match imageData w with
                         | Some img => [quote "imageData" ++ ":" ++ quote img]
                         | None => []
                         end)
                ++ "}"))
        (trace w).
Proof.
  intros Hs Hnan. destruct (trace_started w t0 p pay Hs) as (after & Ht).
  split; [apply (posts_trace_started _ _ _ _ Hs) |].
  rewrite Ht, announce_trace, Hnan. cbn [fst]. split.
  - rewrite !in_app_iff. right. left. left. do 3 right. left. reflexivity.
  - rewrite !in_app_iff. right. right. left.
    unfold create_request. rewrite request_body_optional, Hnan.
    destruct (agentId w), (imageData w); reflexivity.
Qed.

Lemma unparsable_duration_sent_as_null_witness :
  In (ConsoleLog "   Duration: NaNs")
     (trace (world_of ["A cat surfing"; "sora-2"; "ten"] None (Some "0x0123") None
               false true false (queued_as "task-1") (fun _ => running 10))).
Proof.
  exact (proj1 (proj2 (unparsable_duration_sent_as_null
                         (world_of ["A cat surfing"; "sora-2"; "ten"] None (Some "0x0123")
                            None false true false (queued_as "task-1")
                            (fun _ => running 10))
                         _ _ _ eq_refl eq_refl))).
Defined.

Lemma slice0_all n : forall s, (js_length s <= n)%nat -> slice0 n s = s.
Proof.
  intros s. revert n. induction s as [| c s IH]; intros n H; [reflexivity |].
  cbn [slice0 js_length] in *. unfold code_units in *.
  destruct (is_continuation c).
  - rewrite IH by exact H. reflexivity.
  - destruct (240 <=? nat_of_ascii c)%nat.
    + destruct (Nat.leb_spec 2 n); [| lia]. rewrite IH by lia. reflexivity.
    + destruct (Nat.leb_spec 1 n); [| lia]. rewrite IH by lia. reflexivity.
Qed.

Lemma slice0_within n : forall s, (js_length (slice0 n s) <= n)%nat.
Proof.
  intros s. revert n. induction s as [| c s IH]; intros n; [cbn; lia |].
  cbn [slice0]. destruct (is_continuation c) eqn:Hc.
  - cbn [js_length]. unfold code_units. rewrite Hc. apply IH.
  - destruct (Nat.leb_spec (code_units c) n).
    + cbn [js_length]. specialize (IH (n - code_units c)%nat). lia.
    + destruct (Nat.eqb_spec n 1) as [-> | Hn];
        [change (js_length replacement_character) with 1%nat; lia | cbn; lia].
Qed.

(** X5. The log shortens what the request sends whole. The prompt line
    shows the prompt as it is up to 80 UTF-16 code units, and its first 80
    units followed by three dots beyond that. An image given as a data: URI
    is shown as [base64], any other as its first 60 units followed by three
    dots (also when it is shorter). The body of the POST holds the prompt
    and the image data unabridged. *)
Theorem log_previews_request_whole w t0 p pay :
  startup w = (t0, inl (p, pay)) ->
  (exists shown,
     In (ConsoleLog ("   Prompt:   " ++ dq ++ shown ++ dq)) (trace w)
     /\ ((js_length p <= 80)%nat -> shown = p)
     /\ ((80 < js_length p)%nat ->
         shown = slice0 80 p ++ "..." /\ (js_length (slice0 80 p) <= 80)%nat))
  /\ (forall img,
        imageData w = Some img ->
        In (ConsoleLog ("   Image:    " ++
                        (if startsWith "data:" img then "[base64]"
                         else slice0 60 img ++ "...")))
           (trace w))
  /\ (exists fields,
        request_body w p = VObj fields
        /\ lookup "prompt" fields = Some (VStr p)
        /\ (forall img, imageData w = Some img ->
                        lookup "imageData" fields = Some (VStr img)))
  /\ In (create_request w p) (trace w).
Proof.
  intros Hs. destruct (trace_started w t0 p pay Hs) as (after & Ht).
  rewrite Ht, announce_trace. cbn [fst].
  split; [| split; [| split]].
  - exists (slice0 80 p ++ (if (80 <? js_length p)%nat then "..." else "")).
    split; [| split].
    + rewrite !in_app_iff. right. left. left. right. left.
      unfold prompt_preview. rewrite append_assoc. reflexivity.
    + intros H. rewrite (slice0_all 80 p H).
      destruct (Nat.ltb_spec 80 (js_length p)); [lia |].
      clear. induction p as [| c p IH]; [reflexivity | cbn; rewrite IH; reflexivity].
    + intros H. destruct (Nat.ltb_spec 80 (js_length p)); [| lia].
      split; [reflexivity | apply slice0_within].
  - intros img Himg. rewrite Himg, !in_app_iff.
    right. left. right. right. left. left. reflexivity.
  - rewrite request_body_optional. eexists. split; [reflexivity |].
    split; [reflexivity |].
    intros img Himg. rewrite Himg.
    destruct (agentId w); reflexivity.
  - rewrite !in_app_iff. right. right. left. reflexivity.
Qed.

Lemma log_previews_request_whole_witness :
  In (ConsoleLog "   Image:    [base64]")
     (trace (world_of ["A cat surfing"; ""; ""; ""; ""; "data:image/png;base64,iVBORw0KGgo="]
               None (Some "0x0123") None false true false
               (queued_as "task-1") (fun _ => running 10))).
Proof.
  exact (proj1 (proj2 (log_previews_request_whole
                         (world_of ["A cat surfing"; ""; ""; ""; "";
                                    "data:image/png;base64,iVBORw0KGgo="]
                            None (Some "0x0123") None false true false
                            (queued_as "task-1") (fun _ => running 10))
                         _ _ _ eq_refl))
               "data:image/png;base64,iVBORw0KGgo=" eq_refl).
Defined.

(** ** Submission without a usable answer *)

Lemma run_submit_stopped w t0 p pay t o :
  startup w = (t0, inl (p, pay)) ->
  submit w pay p = (t, inr o) ->
  run w = ((t0 ++ fst (announce w p) ++ t)%list, o).
Proof.
  intros Hs Hsub. apply run_stopped_early.
  rewrite (before_polling_started w t0 p pay Hs). cbv zeta.
  rewrite (bind_inr _ _ _ _ Hsub). reflexivity.
Qed.

(** X6. When the creation request gets no answer (the fetch rejects) or an
    answer that is not JSON, the exception is not caught: the run ends right
    after the POST with exit code 1, without the "Generation failed" report,
    without a second attempt and without polling. *)
Theorem submission_without_answer w t0 p pay :
  startup w = (t0, inl (p, pay)) ->
  create_response w = FetchRejects \/ (exists status, create_response w = Response status None) ->
  trace w = (t0 ++ fst (announce w p) ++ [create_request w p])%list
  /\ snd (run w) = Uncaught (match create_response w with
                             | FetchRejects => TransportError
                             | _ => JsonDecodeError
                             end)
  /\ exit_status w = 1
  /\ posts (trace w) = 1%nat /\ polls (trace w) = 0%nat
  /\ Forall (fun e => match e with ConsoleError _ => False | _ => True end)
            (fst (announce w p) ++ [create_request w p]).
Proof.
  intros Hs Hr.
  assert (Hsub : submit w pay p =
                 ([create_request w p],
                  inr (Uncaught (match create_response w with
                                 | FetchRejects => TransportError
                                 | _ => JsonDecodeError
                                 end)))).
  { unfold submit. destruct Hr as [Hr | [status Hr]]; rewrite Hr; reflexivity. }
  pose proof (run_submit_stopped w t0 p pay _ _ Hs Hsub) as Hrun.
  assert (Ht : trace w = (t0 ++ fst (announce w p) ++ [create_request w p])%list).
  { unfold trace. rewrite Hrun. reflexivity. }
  split; [exact Ht |].
  split; [rewrite Hrun; reflexivity |].
  split; [unfold exit_status; rewrite Hrun; reflexivity |].
  split; [apply (posts_trace_started _ _ _ _ Hs) |].
  split.
  - rewrite Ht. pose proof (startup_quiet w) as Hq. unfold Emits in Hq.
    rewrite Hs in Hq. cbn [fst] in Hq.
    rewrite !polls_app, (polls_none t0), (polls_none (fst (announce w p))).
    + reflexivity.
    + eapply Forall_impl; [| apply announce_quiet]. intros e [H _]; exact H.
    + eapply Forall_impl; [| exact Hq]. intros e [H _]; exact H.
  - rewrite announce_trace. cbn [fst].
    destruct (agentId w), (imageData w); repeat constructor.
Qed.

Lemma submission_without_answer_witness :
  snd (run (world_of ["A cat surfing"] None (Some "0x0123") None false true false
              (Response 502 None) (fun _ => running 10)))
  = Uncaught JsonDecodeError.
Proof.
  exact (proj1 (proj2 (submission_without_answer
                         (world_of ["A cat surfing"] None (Some "0x0123") None
                            false true false (Response 502 None) (fun _ => running 10))
                         _ _ _ eq_refl (or_intror (ex_intro _ 502 eq_refl))))).
Defined.

(** X7. The HTTP status is looked at before the body. With any status
    other than 202 the body is not read for its task identifier: even a
    body [null] gets the "Generation failed" report with the body printed
    as indented JSON, and exit code 1 through [process.exit]. With status
    202 a body [null] makes the read of [taskId] raise, and the run ends on
    the uncaught TypeError with nothing reported. *)
Theorem status_checked_before_body w t0 p pay status body :
  startup w = (t0, inl (p, pay)) ->
  create_response w = Response status (Some body) ->
  (status <> 202 ->
   run w = ((t0 ++ fst (announce w p)
             ++ [create_request w p;
                 ConsoleError ("❌ Generation failed: " ++ JSON_stringify_2 body)])%list,
            Exited 1))
  /\ (status = 202 -> body = VNull \/ body = VUndef ->
      run w = ((t0 ++ fst (announce w p) ++ [create_request w p])%list,
               Uncaught (TypeError "taskId")))
  /\ JSON_stringify_2 VNull = "null".
Proof.
  intros Hs Hr. split; [| split; [| reflexivity]].
  - intros Hne.
    apply (run_submit_stopped w t0 p pay _ _ Hs
             (submit_wrong_status w pay p status body Hr Hne)).
  - intros -> Hnull. apply (run_submit_stopped w t0 p pay _ _ Hs).
    unfold submit, check_response. rewrite Hr.
    destruct Hnull as [-> | ->]; reflexivity.
Qed.

Lemma status_checked_before_body_witness :
  snd (run (world_of ["A cat surfing"] None (Some "0x0123") None false true false
              (Response 500 (Some VNull)) (fun _ => running 10))) = Exited 1
  /\ snd (run (world_of ["A cat surfing"] None (Some "0x0123") None false true false
                 (Response 202 (Some VNull)) (fun _ => running 10)))
     = Uncaught (TypeError "taskId").
Proof.
  split.
  - rewrite (proj1 (status_checked_before_body
                      (world_of ["A cat surfing"] None (Some "0x0123") None
                         false true false (Response 500 (Some VNull))
                         (fun _ => running 10))
                      _ _ _ 500 VNull eq_refl eq_refl) ltac:(discriminate)).
    reflexivity.
  - rewrite (proj1 (proj2 (status_checked_before_body
                      (world_of ["A cat surfing"] None (Some "0x0123") None
                         false true false (Response 202 (Some VNull))
                         (fun _ => running 10))
                      _ _ _ 202 VNull eq_refl eq_refl)) eq_refl (or_introl eq_refl)).
    reflexivity.
Defined.

(** ** How every session ends *)














(** ** Timers and status requests *)

(** What a session is started with, read off the world. *)
Lemma before_polling_session w t s :
  before_polling w = (t, inl s) ->
  exists t0 p pay status body,
    startup w = (t0, inl (p, pay))
    /\ create_response w = Response status (Some body)
    /\ accepted status body
    /\ s = {| network := paymentNetwork pay; taskId := opt_member body "taskId";
              session_model := model w |}.
Proof.
  intros H. destruct (startup w) as [t0 [[p pay] | o0]] eqn:Hs.
  2:{ unfold before_polling in H. rewrite (bind_inr _ _ _ _ Hs) in H. discriminate H. }
  exists t0, p, pay.
  destruct (create_response w) as [| status [body |]] eqn:Hr.
  - rewrite (before_polling_started w t0 p pay Hs) in H. cbv zeta in H.
    unfold submit in H. rewrite Hr in H. discriminate H.
  - exists status, body. split; [reflexivity |]. split; [reflexivity |].
    destruct (Z.eq_dec status 202) as [E | E].
    + destruct (has_task_id body) eqn:Hid.
      * assert (Ha : accepted status body) by (split; assumption).
        split; [exact Ha |].
        rewrite (before_polling_accepted w t0 p pay Hs status body Hr Ha) in H.
        injection H as _ <-. reflexivity.
      * destruct (before_polling_rejected w t0 p pay Hs status body Hr)
          as (t' & o & Hb & _); [intros [_ Ha]; congruence | congruence].
    + destruct (before_polling_rejected w t0 p pay Hs status body Hr)
        as (t' & o & Hb & _); [intros [Ha _]; congruence | congruence].
  - rewrite (before_polling_started w t0 p pay Hs) in H. cbv zeta in H.
    unfold submit in H. rewrite Hr in H. discriminate H.
Qed.

Lemma paced_quiet_app ms url t1 t2 :
  Forall quiet t1 -> paced ms url (t1 ++ t2) = paced ms url t2.
Proof.
  induction 1 as [| e t1 He _ IH]; [reflexivity |].
  destruct e; cbn [quiet] in He; try contradiction; cbn [app paced]; exact IH.
Qed.

Lemma paced_pair ms url t :
  paced ms url (SetTimeout ms :: Fetch url :: t) = paced ms url t.
Proof. cbn [paced]. rewrite Z.eqb_refl, String.eqb_refl. reflexivity. Qed.

Lemma before_polling_quiet w : Emits quiet (before_polling w).
Proof.
  unfold before_polling, startup, check_args, setup_payment, announce, submit,
    check_response.
  emits.
Qed.

(** An iteration is its timer, its request, and console output. *)
Lemma poll_once_shape w s i :
  exists q,
    fst (poll_once w s i) =
    SetTimeout (pollIntervalMs (session_model s)) :: Fetch (status_url s) :: q
    /\ Forall quiet q.
Proof.
  unfold poll_once. rewrite !bind_emit. cbn [fst].
  eexists. split; [reflexivity |].
  match goal with |- Forall _ (fst ?m) => change (Emits quiet m) end.
  unfold report_completed. emits.
Qed.

Lemma paced_poll_loop w s n : forall i tail,
  paced (pollIntervalMs (session_model s)) (status_url s)
        (fst (poll_loop w s n i) ++ tail)
  = paced (pollIntervalMs (session_model s)) (status_url s) tail.
Proof.
  induction n as [| n IH]; intros i tail; [reflexivity |].
  cbn [poll_loop]. rewrite fst_bind.
  destruct (poll_once_shape w s i) as (q & Hq & Hquiet). rewrite Hq.
  cbn [app]. rewrite paced_pair, <- !app_assoc, (paced_quiet_app _ _ _ _ Hquiet).
  destruct (snd (poll_once w s i)); [apply IH | reflexivity].
Qed.

Lemma paced_poll w s :
  paced (pollIntervalMs (session_model s)) (status_url s) (fst (poll w s)) = true.
Proof.
  unfold poll. rewrite slow_notice_run. cbn [fst].
  rewrite paced_quiet_app.
  2:{ unfold slow_notice. destruct (isSlowModel (session_model s)); repeat constructor. }
  rewrite fst_bind, paced_poll_loop.
  destruct (snd (poll_loop w s (Z.to_nat (maxPolls (session_model s))) 0));
    reflexivity.
Qed.


Lemma trace_paced w :
  paced (pollIntervalMs (model w)) (expected_status_url w) (trace w) = true.
Proof.
  rewrite trace_main. unfold main. rewrite fst_bind.
  rewrite (paced_quiet_app _ _ _ _ (before_polling_quiet w)).
  destruct (before_polling w) as [t [s | o]] eqn:Hb; cbn [snd]; [| reflexivity].
  destruct (before_polling_session w t s Hb)
    as (t0 & p & pay & status & body & _ & Hr & _ & ->).
  pose proof (paced_poll w {| network := paymentNetwork pay;
                              taskId := opt_member body "taskId";
                              session_model := model w |}) as Hp.
  unfold expected_status_url. rewrite Hr. exact Hp.
Qed.

(** X10. In every run, timers and status requests go in pairs: each status
    GET comes right behind a timer of the interval the model calls for, also
    the first one, no timer is set without its GET, and all GETs go to the
    one URL made of the task identifier of the creation answer, put in as
    it is. *)
Theorem every_poll_follows_its_timer w :
  paced (pollIntervalMs (model w)) (expected_status_url w) (trace w) = true
  /\ (forall before url after,
        trace w = (before ++ Fetch url :: after)%list ->
        url = expected_status_url w
        /\ exists before',
             before = (before' ++ [SetTimeout (pollIntervalMs (model w))])%list).
Proof.
  pose proof (trace_paced w) as Hpaced.
  split; [exact Hpaced |].
  generalize dependent (trace w). intros t. clear.
  generalize (pollIntervalMs (model w)) (expected_status_url w). intros ms target.
  intros Hp before url after ->.
  revert Hp.
  assert (Hgen : forall before,
            (paced ms target (before ++ Fetch url :: after) = true ->
             url = target /\ exists before', before = (before' ++ [SetTimeout ms])%list)
            /\ (forall e, paced ms target (e :: before ++ Fetch url :: after) = true ->
                          url = target
                          /\ exists before',
                               (e :: before = before' ++ [SetTimeout ms])%list)).
  { clear before. induction before as [| a before [IH1 IH2]].
    - split; [cbn; discriminate |].
      intros e H. destruct e; cbn in H; try discriminate H.
      apply andb_prop in H as [H _]. apply andb_prop in H as [Hms Hurl].
      apply Z.eqb_eq in Hms. apply String.eqb_eq in Hurl. subst.
      split; [reflexivity | exists []; reflexivity].
    - split; [apply IH2 |].
      intros e H.
      assert (Hstep : forall e', paced ms target (a :: before ++ Fetch url :: after) = true ->
                url = target /\ exists before', (e' :: a :: before = before' ++ [SetTimeout ms])%list).
      { intros e' H'. destruct (IH2 a H') as [Hu (b' & Hb')].
        split; [exact Hu |]. exists (e' :: b'). rewrite Hb'. reflexivity. }
      destruct e; try (apply Hstep; exact H).
      + discriminate H.
      + cbn [app paced] in H. destruct a; try discriminate H.
        apply andb_prop in H as [_ Hrest].
        destruct (IH1 Hrest) as [Hu (b' & Hb')].
        split; [exact Hu |].
        exists (SetTimeout ms0 :: Fetch url0 :: b'). rewrite Hb'. reflexivity. }
  apply Hgen.
Qed.






(** * The image script *)

Section ImageScript.
Variable inspect : value -> string.




Lemma image_run_answered w t0 p pay status data :
  Image.startup w = (t0, inl (p, pay)) ->
  create_response w = Response status (Some data) ->
  Image.main inspect w =
  ((t0 ++ fst (Image.announce w p)
    ++ FetchWithPayment "https://api.clawdvine.sh/mcp" "POST"
         [("Content-Type", "application/json")]
         (JSON_stringify (Image.request_body w p))
    :: fst (Image.print_answer inspect data))%list,
   snd (Image.print_answer inspect data)).
Proof.
  intros Hs Hr. unfold Image.main.
  rewrite (bind_inl _ _ _ _ Hs). cbn [fst snd].
  assert (Ha : Image.announce w p = (fst (Image.announce w p), inl tt)) by reflexivity.
  rewrite (bind_inl _ _ _ _ Ha), bind_emit, Hr. cbn [await_json].
  rewrite bind_ret. cbn [fst snd]. reflexivity.
Qed.

End ImageScript.

Lemma image_startup_quiet w :
  Emits (fun e => is_console e) (Image.startup w).
Proof. unfold Image.startup, Image.check_args, Image.setup_payment. emits. Qed.

(** X13. The image script never looks at the HTTP status and has no exit
    code for a failed generation: once the request was answered with JSON
    (not [null]) that has no [result.content], the whole answer is printed
    as indented JSON and the script ends with exit code 0, for every
    status. *)
Theorem image_answer_without_content_exits_zero inspect w t0 p pay status data :
  Image.startup w = (t0, inl (p, pay)) ->
  create_response w = Response status (Some data) ->
  data <> VNull -> data <> VUndef ->
  truthy (opt_member (opt_member data "result") "content") = false ->
  Image.run inspect w =
  ((t0 ++ fst (Image.announce w p)
    ++ [FetchWithPayment "https://api.clawdvine.sh/mcp" "POST"
          [("Content-Type", "application/json")]
          (JSON_stringify (Image.request_body w p));
        ConsoleLog (JSON_stringify_2 data)])%list,
   Exited 0).
Proof.
  intros Hs Hr Hn Hu Hc. unfold Image.run.
  rewrite (image_run_answered inspect w t0 p pay status data Hs Hr).
  unfold Image.print_answer.
  assert (Hm : member data "result" = Some (opt_member data "result")).
  { unfold opt_member. destruct data; try contradiction; cbn; try reflexivity.
    destruct (lookup "result" fields); reflexivity. }
  rewrite (get_opt_member _ _ _ _ Hm), bind_ret, Hc. reflexivity.
Qed.

Lemma image_answer_without_content_exits_zero_witness :
  snd (Image.run JSON_stringify
         (world_of ["A red fox"] None (Some "0x0123") None false true false
            (Response 402 (Some (VObj [("error", VStr "payment required")])))
            (fun _ => FetchRejects)))
  = Exited 0.
Proof.
  rewrite (image_answer_without_content_exits_zero JSON_stringify
             (world_of ["A red fox"] None (Some "0x0123") None false true false
                (Response 402 (Some (VObj [("error", VStr "payment required")])))
                (fun _ => FetchRejects))
             _ _ _ 402 _ eq_refl eq_refl ltac:(discriminate) ltac:(discriminate)
             eq_refl).
  reflexivity.
Defined.



Lemma image_render_items_quiet inspect items :
  Emits (fun e => is_console e) (Image.render_items inspect items).
Proof.
  induction items as [| c items IH]; cbn [Image.render_items]; [apply Emits_ret |].
  apply Emits_bind; [| intros _; exact IH].
  unfold Image.render_item, Image.console_log. emits.
Qed.

Lemma image_print_answer_quiet inspect data :
  Emits (fun e => is_console e) (Image.print_answer inspect data).
Proof.
  unfold Image.print_answer. apply Emits_bind; [apply Emits_get |]. intros result.
  destruct (truthy (opt_member result "content")); [| emits].
  unfold Image.for_each_item.
  destruct (opt_member result "content"); try apply Emits_throw;
    [apply Emits_ret | apply image_render_items_quiet].
Qed.

(** X15. The image script makes one request and no more: when the client
    is up, exactly one POST to the MCP endpoint, whose JSON-RPC body names
    the tool, the prompt, the aspect ratio and always an agent (the one
    given, else CLAWDVINE_AGENT_ID, else 1:22831, never an empty one), and
    otherwise none; it never polls and never sets a timer. *)
Theorem image_one_request_with_agent inspect w :
  Image.agentId w <> ""
  /\ (or_else (process_argv w 4) (or_else (env_CLAWDVINE_AGENT_ID w) None) = None ->
      Image.agentId w = "1:22831")
  /\ (forall p,
        JSON_stringify (Image.request_body w p) =
        "{" ++ join ","
                 [quote "jsonrpc" ++ ":" ++ quote "2.0";
                  quote "id" ++ ":" ++ "1";
                  quote "method" ++ ":" ++ quote "tools/call";
                  quote "params" ++ ":" ++
                  ("{" ++ join ","
                            [quote "name" ++ ":" ++ quote "generate_image";
                             quote "arguments" ++ ":" ++
                             ("{" ++ join ","
                                       [quote "prompt" ++ ":" ++ quote p;
                                        quote "agentId" ++ ":" ++ quote (Image.agentId w);
                                        quote "aspectRatio" ++ ":"
                                          ++ quote (Image.aspectRatio w)]
                                  ++ "}")]
                       ++ "}")]
            ++ "}")
  /\ (forall t0 p pay,
        Image.startup w = (t0, inl (p, pay)) ->
        exists after,
          fst (Image.run inspect w) =
          (t0 ++ fst (Image.announce w p)
           ++ FetchWithPayment "https://api.clawdvine.sh/mcp" "POST"
                [("Content-Type", "application/json")]
                (JSON_stringify (Image.request_body w p))
           :: after)%list
          /\ Forall is_console t0 /\ Forall is_console (fst (Image.announce w p))
          /\ Forall is_console after)
  /\ (forall t o,
        Image.startup w = (t, inr o) ->
        Image.run inspect w = (t, Exited 1) /\ Forall is_stderr t).
Proof.
  split; [| split; [| split; [| split]]].
  - unfold Image.agentId, or_default.
    rewrite (or_else_id _ (or_else_not_empty _ _)).
    destruct (or_else (process_argv w 4) (or_else (env_CLAWDVINE_AGENT_ID w) None))
      as [a |] eqn:E; [| discriminate].
    intros ->. apply (or_else_not_empty _ _ E).
  - intros H. unfold Image.agentId, or_default. rewrite H. reflexivity.
  - intros p. reflexivity.
  - intros t0 p pay Hs.
    assert (Hrun : fst (Image.run inspect w) = fst (Image.main inspect w)).
    { unfold Image.run. destruct (Image.main inspect w) as [t [u | o]]; reflexivity. }
    rewrite Hrun. unfold Image.main.
    rewrite (bind_inl _ _ _ _ Hs). cbn [fst snd].
    assert (Ha : Image.announce w p = (fst (Image.announce w p), inl tt)) by reflexivity.
    rewrite (bind_inl _ _ _ _ Ha), bind_emit. cbn [fst snd].
    eexists. split; [reflexivity |].
    pose proof (image_startup_quiet w) as Hq. unfold Emits in Hq.
    rewrite Hs in Hq. cbn [fst] in Hq.
    split; [exact Hq |]. split; [repeat constructor |].
    match goal with |- Forall _ (fst ?m) => change (Emits (fun e => is_console e) m) end.
    apply Emits_bind; [apply Emits_await_json |]. intros r.
    apply image_print_answer_quiet.
  - intros t o Hs.
    assert (Ho : o = Exited 1 /\ Forall is_stderr t).
    { revert Hs. unfold Image.startup, Image.check_args, Image.setup_payment.
      destruct (or_else (Image.prompt w) None);
        destruct (defined (evmKey w)), (defined (solanaKey w)),
                 (dexter_loads w), (x402_loads w), (x402_legacy_loads w);
        cbn; intros [= <- <-] || discriminate; split; try reflexivity;
        repeat constructor. }
    destruct Ho as [-> Hall]. split; [| exact Hall].
    unfold Image.run, Image.main. rewrite (bind_inr _ _ _ _ Hs). reflexivity.
Qed.

Lemma image_one_request_with_agent_witness :
  exists after,
    fst (Image.run JSON_stringify
           (world_of ["A red fox"] None (Some "0x0123") None false true false
              (Response 200 (Some (VObj [("error", VStr "busy")])))
              (fun _ => FetchRejects))) =
    ([ConsoleLog "💳 Payment: Base USDC (via x402)"]
     ++ fst (Image.announce
               (world_of ["A red fox"] None (Some "0x0123") None false true false
                  (Response 200 (Some (VObj [("error", VStr "busy")])))
                  (fun _ => FetchRejects)) "A red fox")
     ++ FetchWithPayment "https://api.clawdvine.sh/mcp" "POST"
          [("Content-Type", "application/json")]
          (JSON_stringify
             (Image.request_body
                (world_of ["A red fox"] None (Some "0x0123") None false true false
                   (Response 200 (Some (VObj [("error", VStr "busy")])))
                   (fun _ => FetchRejects)) "A red fox"))
     :: after)%list
    /\ Forall is_console after.
Proof.
  destruct (proj1 (proj2 (proj2 (proj2 (image_one_request_with_agent JSON_stringify
              (world_of ["A red fox"] None (Some "0x0123") None false true false
                 (Response 200 (Some (VObj [("error", VStr "busy")])))
                 (fun _ => FetchRejects))))))
              [ConsoleLog "💳 Payment: Base USDC (via x402)"] "A red fox" _ eq_refl)
    as (after & Hrun & _ & _ & Hafter).
  exists after. split; [exact Hrun | exact Hafter].
Defined.

(** * The balance script *)

(** ** From base units to the verdict *)

Lemma nearest_double_small n : 0 <= n < 2 ^ 53 -> Balance.nearest_double n = n.
Proof.
  intros [H0 H]. unfold Balance.nearest_double.
  destruct (Z.eq_dec n 0) as [-> | Hn]; [reflexivity |].
  assert (Z.log2 n < 53) by (apply Z.log2_lt_pow2; lia).
  destruct (Z.leb_spec (Z.log2 n + 1) 53); [reflexivity | lia].
Qed.

Lemma nearest_double_large n : 2 ^ 53 <= n -> 2 ^ 53 <= Balance.nearest_double n.
Proof.
  intros H. unfold Balance.nearest_double.
  assert (Hpos : 0 < n) by (assert (0 < 2 ^ 53) by reflexivity; lia).
  assert (Hlog : 53 <= Z.log2 n) by (apply Z.log2_le_pow2; [exact Hpos | exact H]).
  destruct (Z.leb_spec (Z.log2 n + 1) 53); [lia |].
  set (e := Z.log2 n + 1 - 53). assert (He : 1 <= e) by (unfold e; lia).
  assert (Hpow : 2 ^ 52 * 2 ^ e <= n).
  { rewrite <- Z.pow_add_r by lia. replace (52 + e) with (Z.log2 n) by (unfold e; lia).
    apply Z.log2_spec. exact Hpos. }
  assert (Hp2 : 2 <= 2 ^ e).
  { change 2 with (2 ^ 1) at 1. apply Z.pow_le_mono_r; lia. }
  assert (Hq : 2 ^ 52 <= n / 2 ^ e) by (apply Z.div_le_lower_bound; lia).
  set (q := n / 2 ^ e) in *.
  set (up := (2 ^ (e - 1) <? n mod 2 ^ e)
             || ((n mod 2 ^ e =? 2 ^ (e - 1)) && Z.odd q)).
  assert (Hq' : 2 ^ 52 <= (if up then q + 1 else q)) by (destruct up; lia).
  change (2 ^ 53) with (2 ^ 52 * 2).
  apply Z.mul_le_mono_nonneg; lia.
Qed.

Lemma nearest_double_nonneg n : 0 <= n -> 0 <= Balance.nearest_double n.
Proof.
  intros H. destruct (Z.lt_ge_cases n (2 ^ 53)).
  - rewrite nearest_double_small by lia. exact H.
  - pose proof (nearest_double_large n ltac:(lia)).
    assert (0 < 2 ^ 53) by reflexivity. lia.
Qed.

(** The comparison with the threshold is exact, whatever the rounding. *)
Lemma Number_at_least q :
  Balance.at_least (Balance.Number q) Balance.MIN_BALANCE = (10000000 <=? q).
Proof.
  unfold Balance.Number, Balance.MIN_BALANCE.
  assert (Hc : 10000000 < 2 ^ 53) by reflexivity.
  assert (Hc' : 2 ^ 53 < 2 ^ 1024) by reflexivity.
  pose proof (nearest_double_nonneg (Z.abs q) (Z.abs_nonneg q)) as Hm.
  destruct (Z.leb_spec 10000000 q) as [Hq | Hq].
  - rewrite Z.abs_eq, Z.sgn_pos in * by lia.
    destruct (Z.ltb_spec q 0); [lia |].
    destruct (Z.leb_spec (2 ^ 1024) (Balance.nearest_double q)); [reflexivity |].
    cbn [Balance.at_least]. apply Z.leb_le.
    destruct (Z.lt_ge_cases q (2 ^ 53)).
    + rewrite nearest_double_small by lia. lia.
    + pose proof (nearest_double_large q ltac:(lia)). lia.
  - destruct (Z.leb_spec (2 ^ 1024) (Balance.nearest_double (Z.abs q))).
    + destruct (Z.ltb_spec q 0); [reflexivity |].
      rewrite Z.abs_eq in * by lia.
      rewrite nearest_double_small in * by lia. lia.
    + cbn [Balance.at_least]. apply Z.leb_gt.
      destruct (Z.lt_trichotomy q 0) as [Hn | [-> | Hp]].
      * rewrite Z.sgn_neg by lia. lia.
      * cbn. lia.
      * rewrite Z.sgn_pos, Z.abs_eq by lia.
        rewrite nearest_double_small by lia. lia.
Qed.

Lemma eligible_threshold raw : Balance.eligible raw = (10 ^ 25 <=? raw).
Proof.
  unfold Balance.eligible, Balance.humanBalance, Balance.DECIMALS.
  rewrite Number_at_least.
  assert (H18 : 0 < 10 ^ 18) by reflexivity.
  assert (H25 : 10 ^ 25 = 10000000 * 10 ^ 18) by reflexivity.
  destruct (Z.leb_spec (10 ^ 25) raw) as [H | H].
  - apply Z.leb_le. rewrite Z.quot_div_nonneg by lia.
    apply Z.div_le_lower_bound; lia.
  - apply Z.leb_gt. destruct (Z.lt_ge_cases raw 0) as [Hn | Hp].
    + pose proof (Z.quot_opp_l raw (10 ^ 18) ltac:(lia)) as Ho.
      assert (0 <= Z.quot (- raw) (10 ^ 18)) by (apply Z.quot_pos; lia).
      lia.
    + rewrite Z.quot_div_nonneg by lia.
      apply Z.div_lt_upper_bound; lia.
Qed.

(** ** The run *)

Lemma balance_report_read fmt a body result raw :
  member body "result" = Some result ->
  Balance.rawBalance result = Some raw ->
  Balance.report fmt a body =
    if 10 ^ 25 <=? raw
    then ([Balance.Log (JSON_stringify_2 (Balance.output fmt a raw))], Balance.Exit 0)
    else ([Balance.Log (JSON_stringify_2 (Balance.output fmt a raw));
           Balance.Err (Balance.warning fmt raw)], Balance.Exit 1).
Proof.
  intros Hm Hr. unfold Balance.report. rewrite Hm, Hr, eligible_threshold.
  reflexivity.
Qed.

Lemma balance_run_answered fmt w a status body :
  Balance.address w = inl (Some a) ->
  Balance.rpc_response w = Response status (Some body) ->
  Balance.run fmt w =
    (Balance.rpc_request a :: fst (Balance.report fmt a body),
     snd (Balance.report fmt a body)).
Proof.
  intros Ha Hr. unfold Balance.run. rewrite Ha, Hr.
  destruct (Balance.report fmt a body). reflexivity.
Qed.

Lemma balance_address_asked a answer :
  a <> "" -> Balance.address (Balance.asked a answer) = inl (Some a).
Proof.
  intros Ha. unfold Balance.address, or_else. cbn.
  destruct (String.eqb_spec a ""); [contradiction | reflexivity].
Qed.

(** X16: with an address and an answer whose result reads as [raw] base
    units, the script prints the report, marks the balance eligible exactly
    when [raw] is at least 10^25 (ten million tokens of 18 decimals), and
    ends with status 0 then; below that it adds the warning on stderr and
    exits with status 1. The rounding of the whole tokens to a double
    never changes the verdict. *)
Theorem balance_verdict_by_threshold fmt w a status body result raw :
  Balance.address w = inl (Some a) ->
  Balance.rpc_response w = Response status (Some body) ->
  member body "result" = Some result ->
  Balance.rawBalance result = Some raw ->
  Balance.eligible raw = (10 ^ 25 <=? raw) /\
  (10 ^ 25 <= raw ->
   Balance.run fmt w =
     ([Balance.rpc_request a;
       Balance.Log (JSON_stringify_2 (Balance.output fmt a raw))],
      Balance.Exit 0)) /\
  (raw < 10 ^ 25 ->
   Balance.run fmt w =
     ([Balance.rpc_request a;
       Balance.Log (JSON_stringify_2 (Balance.output fmt a raw));
       Balance.Err (Balance.warning fmt raw)],
      Balance.Exit 1)).
Proof.
  intros Ha Hr Hm Hraw.
  rewrite (balance_run_answered fmt w a status body Ha Hr).
  rewrite (balance_report_read fmt a body result raw Hm Hraw).
  split; [apply eligible_threshold |].
  split; intros H.
  - destruct (Z.leb_spec (10 ^ 25) raw); [reflexivity | lia].
  - destruct (Z.leb_spec (10 ^ 25) raw); [lia | reflexivity].
Qed.

Lemma balance_verdict_by_threshold_witness :
  Balance.run Balance.plain
    (Balance.asked "0x00000000000000000000000000000000000000aa"
       (Balance.answers "0x84595161401484a000000")) =
  ([Balance.rpc_request "0x00000000000000000000000000000000000000aa";
    Balance.Log (JSON_stringify_2
      (Balance.output Balance.plain
         "0x00000000000000000000000000000000000000aa" (10 ^ 25)))],
   Balance.Exit 0).
Proof.
  exact (proj1 (proj2 (balance_verdict_by_threshold Balance.plain
    (Balance.asked "0x00000000000000000000000000000000000000aa"
       (Balance.answers "0x84595161401484a000000"))
    "0x00000000000000000000000000000000000000aa" 200
    (VObj [("jsonrpc", VStr "2.0"); ("id", VNum (Int 1));
           ("result", VStr "0x84595161401484a000000")])
    (VStr "0x84595161401484a000000") (10 ^ 25)
    eq_refl eq_refl eq_refl eq_refl)) (Z.le_refl _)).
Defined.

(** X17: an answer without a usable result, be it absent (the error
    object of a refused call), [null], empty, [0], [false] or the bare
    ['0x'], is read as a balance of zero: the report and the warning are
    printed and the script exits with status 1; the error is never
    shown. *)
Theorem balance_missing_result_reads_zero fmt w a status body result :
  Balance.address w = inl (Some a) ->
  Balance.rpc_response w = Response status (Some body) ->
  member body "result" = Some result ->
  truthy result = false \/ result = VStr "0x" ->
  Balance.run fmt w =
    ([Balance.rpc_request a;
      Balance.Log (JSON_stringify_2 (Balance.output fmt a 0));
      Balance.Err (Balance.warning fmt 0)],
     Balance.Exit 1).
Proof.
  intros Ha Hr Hm Hres.
  assert (Hraw : Balance.rawBalance result = Some 0).
  { unfold Balance.rawBalance. destruct Hres as [-> | ->]; reflexivity. }
  rewrite (balance_run_answered fmt w a status body Ha Hr).
  rewrite (balance_report_read fmt a body result 0 Hm Hraw).
  reflexivity.
Qed.

Lemma balance_missing_result_reads_zero_witness :
  Balance.run Balance.plain
    (Balance.asked "0x00000000000000000000000000000000000000aa"
       (Balance.refuses "execution reverted")) =
  ([Balance.rpc_request "0x00000000000000000000000000000000000000aa";
    Balance.Log (JSON_stringify_2
      (Balance.output Balance.plain
         "0x00000000000000000000000000000000000000aa" 0));
    Balance.Err (Balance.warning Balance.plain 0)],
   Balance.Exit 1).
Proof.
  exact (balance_missing_result_reads_zero Balance.plain
    (Balance.asked "0x00000000000000000000000000000000000000aa"
       (Balance.refuses "execution reverted"))
    "0x00000000000000000000000000000000000000aa" 200
    (VObj [("jsonrpc", VStr "2.0"); ("id", VNum (Int 1));
           ("error", VObj [("code", VNum (Int (-32000)));
                           ("message", VStr "execution reverted")])])
    VUndef eq_refl eq_refl eq_refl (or_introl eq_refl)).
Defined.

Lemma balance_report_quiet_throw fmt a body f :
  snd (Balance.report fmt a body) = Balance.Throws f ->
  fst (Balance.report fmt a body) = [].
Proof.
  unfold Balance.report.
  destruct (member body "result") as [result |]; [| reflexivity].
  destruct (Balance.rawBalance result) as [raw |]; [| reflexivity].
  destruct (Balance.eligible raw); discriminate.
Qed.

(** X18: when the script ends with an uncaught exception, nothing has been
    printed: either no request was made (the account could not be derived
    from the key) or the request is all that happened. The failures are
    the account, the transport, an answer that is not JSON, [null] for an
    answer, and a result [BigInt] refuses. Node's status is 1. *)
Theorem balance_throws_before_printing fmt w f :
  snd (Balance.run fmt w) = Balance.Throws f ->
  Balance.exit_code (snd (Balance.run fmt w)) = 1 /\
  (f = Balance.AccountFails /\ fst (Balance.run fmt w) = [] \/
   f <> Balance.AccountFails /\
   exists a, Balance.address w = inl (Some a) /\
             fst (Balance.run fmt w) = [Balance.rpc_request a]).
Proof.
  intros H. split; [rewrite H; reflexivity |].
  revert H. unfold Balance.run.
  destruct (Balance.address w) as [[a |] | f'] eqn:Ha.
  - destruct (Balance.rpc_response w) as [| status [body |]].
    + cbn. intros [= <-]. right. split; [discriminate | eauto].
    + pose proof (balance_report_quiet_throw fmt a body) as Hq.
      destruct (Balance.report fmt a body) as [t e] eqn:Hrep. cbn in *.
      intros ->. rewrite (Hq f eq_refl). right. split; [| eauto].
      revert Hrep. unfold Balance.report.
      destruct (member body "result") as [result |]; [| intros [= _ <-]; discriminate].
      destruct (Balance.rawBalance result) as [raw |]; [| intros [= _ <-]; discriminate].
      destruct (Balance.eligible raw); discriminate.
    + cbn. intros [= <-]. right. split; [discriminate | eauto].
  - discriminate.
  - cbn. intros [= <-]. left. split; [| reflexivity].
    revert Ha. unfold Balance.address.
    destruct (or_else (Balance.argv2 w) None); [discriminate |].
    destruct (or_else (Balance.EVM_PRIVATE_KEY w) None) as [key |]; [| discriminate].
    destruct (Balance.account_address w key); [discriminate |].
    intros [= <-]. reflexivity.
Qed.

Lemma balance_throws_before_printing_witness :
  Balance.exit_code
    (snd (Balance.run Balance.plain
            (Balance.asked "0x00000000000000000000000000000000000000aa"
               (Balance.answers "0xzz")))) = 1 /\
  (Balance.NotAnInteger = Balance.AccountFails /\
   fst (Balance.run Balance.plain
          (Balance.asked "0x00000000000000000000000000000000000000aa"
             (Balance.answers "0xzz"))) = [] \/
   Balance.NotAnInteger <> Balance.AccountFails /\
   exists a,
     Balance.address
       (Balance.asked "0x00000000000000000000000000000000000000aa"
          (Balance.answers "0xzz")) = inl (Some a) /\
     fst (Balance.run Balance.plain
            (Balance.asked "0x00000000000000000000000000000000000000aa"
               (Balance.answers "0xzz"))) = [Balance.rpc_request a]).
Proof.
  exact (balance_throws_before_printing Balance.plain
    (Balance.asked "0x00000000000000000000000000000000000000aa"
       (Balance.answers "0xzz"))
    Balance.NotAnInteger eq_refl).
Defined.

(** ** Hexadecimal words *)

Lemma hex_digit_no_space c rest :
  Balance.hex_digit c = true -> space_width (String c rest) = 0%nat.
Proof.
  destruct c as [[] [] [] [] [] [] [] []]; try discriminate; intros _; reflexivity.
Qed.

Lemma skip_spaces_none s : space_width s = 0%nat -> skip_spaces s = s.
Proof.
  intros H. unfold skip_spaces. destruct s as [| c rest]; [reflexivity |].
  cbn [length skip_spaces_upto]. rewrite H. reflexivity.
Qed.

Lemma trim_end_cons c rest :
  space_width (String c rest) = 0%nat ->
  Balance.trim_end (String c rest) = String c (Balance.trim_end rest).
Proof.
  intros H. cbn [Balance.trim_end]. rewrite (skip_spaces_none _ H). reflexivity.
Qed.

Lemma trim_end_hex h : Balance.hex_word h = true -> Balance.trim_end h = h.
Proof.
  induction h as [| c rest IH]; [reflexivity |].
  cbn [Balance.hex_word]. intros [Hc Hr]%andb_prop.
  rewrite trim_end_cons by (apply hex_digit_no_space; exact Hc).
  rewrite IH by exact Hr. reflexivity.
Qed.

Lemma digits_from_hex h : forall acc,
  Balance.hex_word h = true -> 0 <= acc ->
  exists v, Balance.digits_from 16 acc h = Some v /\
            acc * 16 ^ Z.of_nat (length h) <= v
            < (acc + 1) * 16 ^ Z.of_nat (length h).
Proof.
  induction h as [| c rest IH]; intros acc Hh Hacc.
  - exists acc. split; [reflexivity |]. cbn. lia.
  - cbn [Balance.hex_word] in Hh. apply andb_prop in Hh as [Hc Hr].
    unfold Balance.hex_digit in Hc.
    cbn [Balance.digits_from].
    destruct (Balance.digit_value c) as [d |] eqn:Hd; [| discriminate].
    rewrite Hc.
    assert (Hd0 : 0 <= d).
    { revert Hd. unfold Balance.digit_value.
      repeat match goal with
             | |- context [if ?b then _ else _] => destruct b eqn:?
             end; intros [= <-]; lia. }
    apply Z.ltb_lt in Hc.
    destruct (IH (16 * acc + d) Hr ltac:(lia)) as (v & Hv & Hlo & Hhi).
    exists v. split; [exact Hv |].
    cbn [length]. rewrite Nat2Z.inj_succ, Z.pow_succ_r by lia.
    assert (0 < 16 ^ Z.of_nat (length rest)) by (apply Z.pow_pos_nonneg; lia).
    nia.
Qed.

Lemma StringToBigInt_hex h :
  Balance.hex_word h = true -> h <> "" ->
  Balance.StringToBigInt ("0x" ++ h) = Balance.digits_from 16 0 h.
Proof.
  intros Hh Hne. unfold Balance.StringToBigInt.
  change ("0x" ++ h) with (String "0" (String "x" h)).
  rewrite skip_spaces_none by reflexivity.
  rewrite trim_end_cons by reflexivity.
  rewrite trim_end_cons by reflexivity.
  rewrite trim_end_hex by exact Hh.
  destruct h as [| c rest]; [contradiction | reflexivity].
Qed.

(** X19: whatever word of hexadecimal digits the endpoint returns behind
    [0x], the empty one included, the script reads it as a balance: a
    number from 0 to below 16 to the number of digits. It prints the
    report and ends with an exit status given by the threshold, never
    with an exception. *)
Theorem balance_hex_answer_is_reported fmt a h :
  a <> "" ->
  Balance.hex_word h = true ->
  exists raw,
    0 <= raw < 16 ^ Z.of_nat (length h) /\
    Balance.rawBalance (VStr ("0x" ++ h)) = Some raw /\
    exists rest,
      Balance.run fmt (Balance.asked a (Balance.answers ("0x" ++ h))) =
        (Balance.rpc_request a
           :: Balance.Log (JSON_stringify_2 (Balance.output fmt a raw)) :: rest,
         Balance.Exit (if 10 ^ 25 <=? raw then 0 else 1)).
Proof.
  intros Ha Hh.
  assert (Hraw : exists raw, 0 <= raw < 16 ^ Z.of_nat (length h) /\
                             Balance.rawBalance (VStr ("0x" ++ h)) = Some raw).
  { destruct h as [| c rest] eqn:Eh.
    - exists 0. split; [cbn; lia | reflexivity].
    - rewrite <- Eh in *. assert (Hne : h <> "") by (rewrite Eh; discriminate).
      destruct (digits_from_hex h 0 Hh (Z.le_refl 0)) as (v & Hv & Hlo & Hhi).
      exists v. split; [lia |].
      unfold Balance.rawBalance.
      replace (is_string (VStr ("0x" ++ h)) "0x") with false.
      + cbn [truthy negb orb]. 
        replace (truthy (VStr ("0x" ++ h))) with true by reflexivity.
        cbn [negb orb Balance.BigInt].
        rewrite StringToBigInt_hex by assumption. exact Hv.
      + rewrite Eh. reflexivity. }
  destruct Hraw as (raw & Hrange & Hraw). exists raw.
  split; [exact Hrange |]. split; [exact Hraw |].
  unfold Balance.answers.
  rewrite (balance_run_answered fmt _ a 200
             (VObj [("jsonrpc", VStr "2.0"); ("id", VNum (Int 1));
                    ("result", VStr ("0x" ++ h))])
             (balance_address_asked a _ Ha) eq_refl).
  rewrite (balance_report_read fmt a
             (VObj [("jsonrpc", VStr "2.0"); ("id", VNum (Int 1));
                    ("result", VStr ("0x" ++ h))])
             (VStr ("0x" ++ h)) raw eq_refl Hraw).
  destruct (10 ^ 25 <=? raw); eexists; reflexivity.
Qed.

Lemma balance_hex_answer_is_reported_witness :
  exists raw,
    0 <= raw < 16 ^ Z.of_nat (length "00ff") /\
    Balance.rawBalance (VStr ("0x" ++ "00ff")) = Some raw /\
    exists rest,
      Balance.run Balance.plain
        (Balance.asked "0x00000000000000000000000000000000000000aa"
           (Balance.answers ("0x" ++ "00ff"))) =
        (Balance.rpc_request "0x00000000000000000000000000000000000000aa"
           :: Balance.Log (JSON_stringify_2
                (Balance.output Balance.plain
                   "0x00000000000000000000000000000000000000aa" raw)) :: rest,
         Balance.Exit (if 10 ^ 25 <=? raw then 0 else 1)).
Proof.
  apply (balance_hex_answer_is_reported Balance.plain
           "0x00000000000000000000000000000000000000aa" "00ff");
    [discriminate | reflexivity].
Defined.

(** ** Whose balance *)

Lemma balance_run_of_address fmt w w' :
  Balance.address w = Balance.address w' ->
  Balance.rpc_response w = Balance.rpc_response w' ->
  Balance.run fmt w = Balance.run fmt w'.
Proof. intros Ha Hr. unfold Balance.run. rewrite Ha, Hr. reflexivity. Qed.

Lemma balance_address_asked_any a answer :
  Balance.address (Balance.asked a answer) = inl (or_else (Some a) None).
Proof.
  unfold Balance.address. cbn [Balance.asked Balance.argv2 Balance.EVM_PRIVATE_KEY].
  destruct (or_else (Some a) None); reflexivity.
Qed.

(** X20: an address on the command line is the one asked about, whether
    or not a key is set: the key is not looked at and no account is
    derived, so the run is the one of a world without a key. *)
Theorem balance_command_line_address_wins fmt w a :
  Balance.argv2 w = Some a ->
  a <> "" ->
  Balance.run fmt w = Balance.run fmt (Balance.asked a (Balance.rpc_response w)).
Proof.
  intros Hargv Ha. apply balance_run_of_address; [| reflexivity].
  rewrite balance_address_asked by exact Ha.
  unfold Balance.address. rewrite Hargv. unfold or_else.
  destruct (String.eqb_spec a ""); [contradiction | reflexivity].
Qed.

Lemma balance_command_line_address_wins_witness :
  Balance.run Balance.plain
    {| Balance.argv2 := Some "0x00000000000000000000000000000000000000aa";
       Balance.EVM_PRIVATE_KEY := Some "0x01";
       Balance.account_address := fun _ => None;
       Balance.rpc_response := Balance.answers "0x10" |} =
  Balance.run Balance.plain
    (Balance.asked "0x00000000000000000000000000000000000000aa"
       (Balance.answers "0x10")).
Proof.
  apply (balance_command_line_address_wins Balance.plain
    {| Balance.argv2 := Some "0x00000000000000000000000000000000000000aa";
       Balance.EVM_PRIVATE_KEY := Some "0x01";
       Balance.account_address := fun _ => None;
       Balance.rpc_response := Balance.answers "0x10" |}
    "0x00000000000000000000000000000000000000aa");
    [reflexivity | discriminate].
Defined.

(** X21: without an address on the command line (none, or an empty one)
    the key decides. With no key, or an empty one, the two usage lines go
    to stderr and the script exits with status 1 without a request. With a
    key whose account cannot be derived the script ends with that
    exception, before any request. Otherwise the run is the one for the
    account's address given on the command line. *)
Theorem balance_address_from_key fmt w :
  or_else (Balance.argv2 w) None = None ->
  match or_else (Balance.EVM_PRIVATE_KEY w) None with
  | None => Balance.run fmt w = (Balance.usage, Balance.Exit 1)
  | Some key =>
      match Balance.account_address w key with
      | None => Balance.run fmt w = ([], Balance.Throws Balance.AccountFails)
      | Some a =>
          Balance.run fmt w =
          Balance.run fmt (Balance.asked a (Balance.rpc_response w))
      end
  end.
Proof.
  intros Hargv.
  destruct (or_else (Balance.EVM_PRIVATE_KEY w) None) as [key |] eqn:Hkey.
  - destruct (Balance.account_address w key) as [a |] eqn:Hacc.
    + apply balance_run_of_address; [| reflexivity].
      rewrite balance_address_asked_any.
      unfold Balance.address. rewrite Hargv, Hkey, Hacc. reflexivity.
    + unfold Balance.run, Balance.address. rewrite Hargv, Hkey, Hacc. reflexivity.
  - unfold Balance.run, Balance.address. rewrite Hargv, Hkey. reflexivity.
Qed.

Lemma balance_address_from_key_witness :
  Balance.run Balance.plain
    (Balance.keyed "0x01" "0x00000000000000000000000000000000000000aa"
       (Balance.answers "0x10")) =
  Balance.run Balance.plain
    (Balance.asked "0x00000000000000000000000000000000000000aa"
       (Balance.answers "0x10")).
Proof.
  exact (balance_address_from_key Balance.plain
    (Balance.keyed "0x01" "0x00000000000000000000000000000000000000aa"
       (Balance.answers "0x10")) eq_refl).
Defined.

(** X22: the balance script ends with status 0 exactly when it had an
    address, the endpoint answered with JSON whose result reads as a
    number, and that number is at least 10^25 base units. *)
Theorem balance_exit_zero_iff fmt w :
  Balance.exit_code (snd (Balance.run fmt w)) = 0 <->
  exists a status body result raw,
    Balance.address w = inl (Some a) /\
    Balance.rpc_response w = Response status (Some body) /\
    member body "result" = Some result /\
    Balance.rawBalance result = Some raw /\
    10 ^ 25 <= raw.
Proof.
  split.
  - unfold Balance.run.
    destruct (Balance.address w) as [[a |] | f] eqn:Ha; try discriminate.
    destruct (Balance.rpc_response w) as [| status [body |]] eqn:Hr;
      try discriminate.
    destruct (member body "result") as [result |] eqn:Hm.
    + destruct (Balance.rawBalance result) as [raw |] eqn:Hraw.
      * rewrite (balance_report_read fmt a body result raw Hm Hraw).
        destruct (Z.leb_spec (10 ^ 25) raw) as [Hle | Hlt]; [| discriminate].
        intros _. exists a, status, body, result, raw. auto.
      * unfold Balance.report. rewrite Hm, Hraw. discriminate.
    + unfold Balance.report. rewrite Hm. discriminate.
  - intros (a & status & body & result & raw & Ha & Hr & Hm & Hraw & Hle).
    rewrite (balance_run_answered fmt w a status body Ha Hr).
    rewrite (balance_report_read fmt a body result raw Hm Hraw).
    destruct (Z.leb_spec (10 ^ 25) raw); [reflexivity | lia].
Qed.

(** ** The call data *)









(** * The packing script *)

Section TarScript.

Variable path_join : string -> string -> string.

Lemma tar_filter_found w l :
  snd (Tar.filter_found path_join w l)
    = filter (fun f => Tar.found w (path_join (Tar.ROOT path_join w) f)) l
  /\ fst (Tar.filter_found path_join w l)
    = map Tar.missing_file
        (filter (fun f => negb (Tar.found w (path_join (Tar.ROOT path_join w) f))) l).
Proof.
  induction l as [| f rest [IHs IHf]]; [split; reflexivity |].
  cbn [Tar.filter_found filter].
  destruct (Tar.filter_found path_join w rest) as [warnings files].
  cbn [fst snd] in *.
  destruct (Tar.found w (path_join (Tar.ROOT path_join w) f)); cbn [negb fst snd map];
    rewrite IHs, IHf; split; reflexivity.
Qed.

Lemma tar_run_started w :
  Tar.mkdir_fails w = false ->
  exists tail,
    Tar.run path_join w =
    ((Tar.Mkdir (Tar.DIST path_join w)
        :: fst (Tar.filter_found path_join w Tar.INCLUDE)
        ++ Tar.Exec (Tar.tarCmd path_join w) (Tar.ROOT path_join w) :: tail)%list,
     match Tar.tar_fails w (Tar.tarCmd path_join w), Tar.archive w with
     | None, inr _ => Tar.Exit 0
     | _, _ => Tar.Exit 1
     end)
    /\ tail =
       match Tar.tar_fails w (Tar.tarCmd path_join w), Tar.archive w with
       | Some message, _ => [Tar.failed message]
       | None, inl message => [Tar.failed message]
       | None, inr size => Tar.built path_join w size
       end.
Proof.
  intros Hm. unfold Tar.run. rewrite Hm.
  destruct (Tar.tar_fails w (Tar.tarCmd path_join w)) as [message |].
  - eexists. split; [| reflexivity]. cbn [app]. rewrite <- app_assoc. reflexivity.
  - destruct (Tar.archive w) as [message | size];
      (eexists; split; [| reflexivity]); cbn [app]; rewrite <- app_assoc; reflexivity.
Qed.

Lemma filter_split_length {A} (p : A -> bool) (l : list A) :
  (List.length (filter p l) + List.length (filter (fun x => negb (p x)) l)
   = List.length l)%nat.
Proof.
  induction l as [| x rest IH]; [reflexivity |].
  cbn [filter]. destruct (p x); cbn [negb List.length]; lia.
Qed.

(** X24: once the output directory is there, the packing script warns
    once for each listed file that is missing, in the order of the list,
    and then runs one [tar] command in the repository root. The command
    names the archive and exactly the listed files that were found, in the
    order of the list, each between double quotes; files found and
    warnings add up to the seven of the list. Missing files do not stop
    the script: the command is run even when no file is left. *)
Theorem tar_command_names_found_files w :
  Tar.mkdir_fails w = false ->
  let here f := Tar.found w (path_join (Tar.ROOT path_join w) f) in
  Tar.tarCmd path_join w =
    "tar -czf " ++ dq ++ Tar.OUTPUT path_join w ++ dq ++ " "
      ++ join " " (map Tar.quoted (filter here Tar.INCLUDE))
  /\ (exists tail,
        fst (Tar.run path_join w) =
          (Tar.Mkdir (Tar.DIST path_join w)
             :: map Tar.missing_file (filter (fun f => negb (here f)) Tar.INCLUDE)
             ++ Tar.Exec (Tar.tarCmd path_join w) (Tar.ROOT path_join w) :: tail)%list
        /\ Forall (fun c => Tar.is_exec c = false /\ Tar.is_warning c = false) tail)
  /\ (List.length (filter here Tar.INCLUDE)
      + List.length (filter (fun f => negb (here f)) Tar.INCLUDE) = 7)%nat
  /\ (filter here Tar.INCLUDE = [] ->
      Tar.tarCmd path_join w = "tar -czf " ++ dq ++ Tar.OUTPUT path_join w ++ dq ++ " ").
Proof.
  intros Hm here.
  destruct (tar_filter_found w Tar.INCLUDE) as [Hfiles Hwarn].
  assert (Hcmd : Tar.tarCmd path_join w =
    "tar -czf " ++ dq ++ Tar.OUTPUT path_join w ++ dq ++ " "
      ++ join " " (map Tar.quoted (filter here Tar.INCLUDE))).
  { unfold Tar.tarCmd, Tar.filesToInclude. rewrite Hfiles. reflexivity. }
  split; [exact Hcmd |]. split; [| split].
  - destruct (tar_run_started w Hm) as (tail & Hrun & Htail).
    exists tail. rewrite Hrun. cbn [fst]. rewrite Hwarn.
    split; [reflexivity |]. rewrite Htail.
    destruct (Tar.tar_fails w (Tar.tarCmd path_join w)).
    + repeat constructor.
    + destruct (Tar.archive w); [repeat constructor |].
      unfold Tar.built. apply Forall_app. split; [repeat constructor |].
      apply Forall_map. apply Forall_forall. intros f _. split; reflexivity.
  - apply (filter_split_length here Tar.INCLUDE).
  - intros Hnone. rewrite Hcmd, Hnone. reflexivity.
Qed.

(** X25: the packing script ends with status 0 in exactly one case: the
    output directory could be made, the [tar] command returned and the
    archive could be looked up afterwards. It prints to stdout only then,
    so a failure shows nothing but the warnings and the error line; how
    many of the listed files were missing plays no part. *)
Theorem tar_exit_zero_iff w :
  (Tar.exit_code (snd (Tar.run path_join w)) = 0 <->
   Tar.mkdir_fails w = false /\
   Tar.tar_fails w (Tar.tarCmd path_join w) = None /\
   exists size, Tar.archive w = inr size)
  /\ (Exists (fun c => Tar.is_log c = true) (fst (Tar.run path_join w)) <->
      Tar.exit_code (snd (Tar.run path_join w)) = 0).
Proof.
  assert (Hquiet : forall l, Forall (fun c => Tar.is_log c = false)
                               (fst (Tar.filter_found path_join w l))).
  { intros l. rewrite (proj2 (tar_filter_found w l)).
    apply Forall_map. apply Forall_forall. intros f _. reflexivity. }
  assert (Hno : forall t, Forall (fun c => Tar.is_log c = false) t ->
                          ~ Exists (fun c => Tar.is_log c = true) t).
  { intros t Hall Hex. apply Exists_exists in Hex as (c & Hin & Hc).
    rewrite Forall_forall in Hall. rewrite (Hall c Hin) in Hc. discriminate. }
  unfold Tar.run.
  destruct (Tar.mkdir_fails w).
  { cbn. split; split; try discriminate.
    - intros [H _]. discriminate.
    - intros H. apply Hno in H; [contradiction | repeat constructor]. }
  destruct (Tar.tar_fails w (Tar.tarCmd path_join w)) as [message |].
  { cbn [fst snd Tar.exit_code]. split; split; try discriminate.
    - intros (_ & H & _). discriminate.
    - intros H. apply Hno in H; [contradiction |].
      apply Forall_app. split; [| repeat constructor].
      constructor; [reflexivity |]. apply Forall_app. split; [apply Hquiet |].
      repeat constructor. }
  destruct (Tar.archive w) as [message | size].
  { cbn [fst snd Tar.exit_code]. split; split; try discriminate.
    - intros (_ & _ & size & H). discriminate.
    - intros H. apply Hno in H; [contradiction |].
      apply Forall_app. split; [| repeat constructor].
      constructor; [reflexivity |]. apply Forall_app. split; [apply Hquiet |].
      repeat constructor. }
  cbn [fst snd Tar.exit_code]. split; split; try reflexivity.
  - intros _. eauto.
  - intros _. apply Exists_app. right. unfold Tar.built. left. reflexivity.
Qed.

End TarScript.

(** X26: the size shown is the size in bytes over 1024, rounded to the
    nearest tenth (a half goes up): it is off by at most 0.05 KB, it grows
    with the size, an archive of up to 51 bytes shows as 0.0 and
    one digit follows the point; when the archive was built this is the
    size line printed. *)
Theorem tar_size_to_the_tenth (size : N) :
  Z.abs (1024 * Tar.tenths size - 10 * Z.of_N size) <= 512
  /\ (forall bigger, (size <= bigger)%N -> Tar.tenths size <= Tar.tenths bigger)
  /\ ((size <= 51)%N -> Tar.sizeKB size = "0.0")
  /\ 0 <= Tar.tenths size mod 10 < 10
  /\ (forall path_join w,
        Tar.mkdir_fails w = false ->
        Tar.tar_fails w (Tar.tarCmd path_join w) = None ->
        Tar.archive w = inr size ->
        In (Tar.Log ("   Size: " ++ Tar.sizeKB size ++ " KB"))
           (fst (Tar.run path_join w))).
Proof.
  unfold Tar.tenths. split; [| split; [| split; [| split]]].
  - pose proof (Z.div_mod (10 * Z.of_N size + 512) 1024 ltac:(lia)) as Hd.
    pose proof (Z.mod_pos_bound (10 * Z.of_N size + 512) 1024 ltac:(lia)) as Hb.
    lia.
  - intros bigger Hle. apply Z.div_le_mono; lia.
  - intros Hle. unfold Tar.sizeKB, Tar.tenths.
    rewrite (Z.div_small (10 * Z.of_N size + 512) 1024) by lia. reflexivity.
  - apply Z.mod_pos_bound. lia.
  - intros path_join w Hm Ht Ha. unfold Tar.run. rewrite Hm, Ht, Ha. cbn [fst].
    apply in_or_app. right. unfold Tar.built. apply in_or_app. left.
    right. left. reflexivity.
Qed.

Lemma tar_command_names_found_files_witness :
  Tar.tarCmd Tar.posix_join (Tar.checkout ["SKILL.md"; "package.json"] 2048) =
  "tar -czf " ++ dq ++ "/repo/dist/clawdvine-skill.tar.gz" ++ dq ++ " "
    ++ dq ++ "SKILL.md" ++ dq ++ " " ++ dq ++ "package.json" ++ dq.
Proof.
  rewrite (proj1 (tar_command_names_found_files Tar.posix_join
                    (Tar.checkout ["SKILL.md"; "package.json"] 2048) eq_refl)).
  reflexivity.
Defined.

Lemma tar_size_to_the_tenth_witness :
  Tar.sizeKB 51 = "0.0" /\
  In (Tar.Log ("   Size: " ++ Tar.sizeKB 2048 ++ " KB"))
     (fst (Tar.run Tar.posix_join (Tar.checkout ["SKILL.md"; "package.json"] 2048))).
Proof.
  split.
  - apply (proj1 (proj2 (proj2 (tar_size_to_the_tenth 51)))). discriminate.
  - apply (proj2 (proj2 (proj2 (proj2 (tar_size_to_the_tenth 2048))))
             Tar.posix_join (Tar.checkout ["SKILL.md"; "package.json"] 2048));
      reflexivity.
Defined.

(** * The signing script *)

Lemma three_at_a_time (P : list nat -> Prop) :
  P [] -> (forall a, P [a]) -> (forall a b, P [a; b]) ->
  (forall a b c rest, P rest -> P (a :: b :: c :: rest)) ->
  forall l, P l.
Proof.
  intros H0 H1 H2 H3 l.
  assert (H : P l /\ (forall a, P (a :: l)) /\ (forall a b, P (a :: b :: l))).
  { induction l as [| c rest (IH0 & IH1 & IH2)].
    - auto.
    - split; [apply IH1 |]. split; [intros a; apply IH2 |].
      intros a b. apply H3. exact IH0. }
  apply H.
Qed.

Lemma base64_char_safe n : Siwe.header_safe (Siwe.base64_char n) = true.
Proof.
  do 64 (destruct n as [| n]; [reflexivity |]). reflexivity.
Qed.

Lemma base64_bytes_safe l :
  Forall (fun c => Siwe.header_safe c = true)
         (list_ascii_of_string (Siwe.base64_bytes l)).
Proof.
  induction l using three_at_a_time; cbn [Siwe.base64_bytes list_ascii_of_string];
    repeat (constructor; [apply base64_char_safe || reflexivity |]);
    [constructor | constructor | constructor | assumption].
Qed.

Lemma base64_bytes_length l :
  length (Siwe.base64_bytes l) = (4 * ((List.length l + 2) / 3))%nat.
Proof.
  induction l using three_at_a_time; try reflexivity.
  cbn [Siwe.base64_bytes length List.length]. rewrite IHl.
  replace (S (S (S (List.length l))) + 2)%nat
    with ((List.length l + 2) + 1 * 3)%nat by lia.
  rewrite Nat.div_add by lia. lia.
Qed.

Lemma length_list_ascii s : List.length (list_ascii_of_string s) = length s.
Proof. induction s as [| c rest IH]; cbn; [| rewrite IH]; reflexivity. Qed.

(** X27: the message header is fit for an HTTP header whatever the
    message: it is made of letters, digits, [+], [/] and [=] only, so it
    holds no line break, and it has four characters for every three bytes
    of the message, rounded up. The address header is the address the
    message was made for. *)
Theorem siwe_message_header_safe w signature message account :
  exists encoded,
    member (Siwe.headers signature message account) "X-EVM-MESSAGE"
      = Some (VStr encoded)
    /\ Forall (fun c => Siwe.header_safe c = true) (list_ascii_of_string encoded)
    /\ ~ In (ascii_of_nat 10) (list_ascii_of_string encoded)
    /\ ~ In (ascii_of_nat 13) (list_ascii_of_string encoded)
    /\ length encoded = (4 * ((length message + 2) / 3))%nat
    /\ member (Siwe.headers signature message account) "X-EVM-ADDRESS"
        = Some (VStr (Siwe.address (Siwe.siweMessage w account))).
Proof.
  exists (Siwe.base64 message).
  pose proof (base64_bytes_safe (map nat_of_ascii (list_ascii_of_string message)))
    as Hsafe.
  split; [reflexivity |]. split; [exact Hsafe |].
  assert (Hnot : forall c, Siwe.header_safe c = false ->
                           ~ In c (list_ascii_of_string (Siwe.base64 message))).
  { intros c Hc Hin. rewrite Forall_forall in Hsafe.
    rewrite (Hsafe c Hin) in Hc. discriminate. }
  split; [apply Hnot; reflexivity |]. split; [apply Hnot; reflexivity |].
  split; [| reflexivity].
  unfold Siwe.base64. rewrite base64_bytes_length, length_map, length_list_ascii.
  reflexivity.
Qed.

(** X28: the nonce is what follows the first two characters of the random
    number written in base 36, up to eight characters: it has eight
    characters only when that number has at least ten, and fewer (down to
    none) otherwise. That is the nonce the message is made with. *)
Theorem siwe_nonce_length w account :
  Siwe.nonce (Siwe.siweMessage w account) = substring 2 8 (Siwe.random_base36 w)
  /\ length (Siwe.nonce (Siwe.siweMessage w account))
     = Nat.min 8 (length (Siwe.random_base36 w) - 2)
  /\ (length (Siwe.nonce (Siwe.siweMessage w account)) = 8%nat <->
      (10 <= length (Siwe.random_base36 w))%nat).
Proof.
  assert (Hlen : forall s n m, length (substring n m s) = Nat.min m (length s - n)).
  { induction s as [| c rest IH]; intros n m.
    - destruct n, m; reflexivity.
    - destruct n as [| n].
      + destruct m as [| m]; [reflexivity |]. cbn [substring length].
        rewrite IH. cbn. rewrite Nat.sub_0_r. reflexivity.
      + cbn [substring length]. rewrite IH. reflexivity. }
  cbn [Siwe.nonce Siwe.siweMessage]. unfold Siwe.new_nonce.
  split; [reflexivity |]. rewrite Hlen. split; [reflexivity | lia].
Qed.

(** X29: the signing script prints at most one line. It ends with status 0
    exactly when the packages load, a key is set and not empty, and the
    account, the message and the signature are all obtained; then the one
    line is the three headers as indented JSON. Without a key it prints
    the error line and exits with status 1, provided the packages load;
    when something throws, nothing is printed. *)
Theorem siwe_headers_or_nothing w :
  (List.length (fst (Siwe.run w)) <= 1)%nat
  /\ (Siwe.exit_code (snd (Siwe.run w)) = 0 <->
      Siwe.packages_load w = true /\
      exists key account message signature,
        or_else (Siwe.EVM_PRIVATE_KEY w) None = Some key /\
        Siwe.account_address w key = Some account /\
        Siwe.prepareMessage w (Siwe.siweMessage w account) = Some message /\
        Siwe.signMessage w key message = Some signature /\
        fst (Siwe.run w) =
          [Siwe.Log (JSON_stringify_2 (Siwe.headers signature message account))])
  /\ (forall f, snd (Siwe.run w) = Siwe.Throws f -> fst (Siwe.run w) = [])
  /\ (Siwe.packages_load w = true ->
      or_else (Siwe.EVM_PRIVATE_KEY w) None = None ->
      Siwe.run w =
        ([Siwe.Err "Error: EVM_PRIVATE_KEY env var is required (0x-prefixed hex)"],
         Siwe.Exit 1)).
Proof.
  assert (Hkey : forall a b : string, Some a = Some b -> a = b)
    by (intros a b [= H]; exact H).
  unfold Siwe.run.
  destruct (Siwe.packages_load w); cbn [negb];
    [| cbn; split; [lia |]; split; [split; [discriminate | intros [H _]; discriminate] |];
       split; [reflexivity | discriminate]].
  destruct (or_else (Siwe.EVM_PRIVATE_KEY w) None) as [key |];
    [| cbn; split; [lia |]; split;
       [split; [discriminate | intros (_ & k & a & m & s & H & _); discriminate] |];
       split; [discriminate | reflexivity]].
  destruct (Siwe.account_address w key) as [account |] eqn:Ha;
    [| cbn; split; [lia |]; split;
       [split; [discriminate |
                intros (_ & k & a & m & s & H1 & H2 & _);
                apply Hkey in H1; subst k; rewrite Ha in H2; discriminate] |];
       split; [reflexivity | discriminate]].
  destruct (Siwe.prepareMessage w (Siwe.siweMessage w account)) as [message |] eqn:Hp;
    [| cbn; split; [lia |]; split;
       [split; [discriminate |
                intros (_ & k & a & m & s & H1 & H2 & H3 & _);
                apply Hkey in H1; subst k; rewrite Ha in H2;
                apply Hkey in H2; subst a; rewrite Hp in H3; discriminate] |];
       split; [reflexivity | discriminate]].
  destruct (Siwe.signMessage w key message) as [signature |] eqn:Hs;
    [| cbn; split; [lia |]; split;
       [split; [discriminate |
                intros (_ & k & a & m & s & H1 & H2 & H3 & H4 & _);
                apply Hkey in H1; subst k; rewrite Ha in H2;
                apply Hkey in H2; subst a; rewrite Hp in H3;
                apply Hkey in H3; subst m; rewrite Hs in H4; discriminate] |];
       split; [reflexivity | discriminate]].
  cbn [fst snd Siwe.exit_code List.length].
  split; [lia |]. split; [| split; discriminate].
  split; [| reflexivity]. intros _. split; [reflexivity |].
  exists key, account, message, signature. auto.
Qed.

Lemma siwe_headers_or_nothing_witness :
  Siwe.run {| Siwe.packages_load := true;
              Siwe.EVM_PRIVATE_KEY := Some "";
              Siwe.account_address := fun _ => None;
              Siwe.random_base36 := "0.i";
              Siwe.now := "2026-01-01T00:00:00.000Z";
              Siwe.prepareMessage := fun _ => None;
              Siwe.signMessage := fun _ _ => None |} =
  ([Siwe.Err "Error: EVM_PRIVATE_KEY env var is required (0x-prefixed hex)"],
   Siwe.Exit 1).
Proof.
  apply (proj2 (proj2 (proj2 (siwe_headers_or_nothing
    {| Siwe.packages_load := true;
       Siwe.EVM_PRIVATE_KEY := Some "";
       Siwe.account_address := fun _ => None;
       Siwe.random_base36 := "0.i";
       Siwe.now := "2026-01-01T00:00:00.000Z";
       Siwe.prepareMessage := fun _ => None;
       Siwe.signMessage := fun _ _ => None |})))); reflexivity.
Defined.
